(** * mini-server-mock: request dispatch, route matching and static fallback

    A shallow embedding of [src/server/server.js] (classes [MiniServer] and
    [ApiController]) and of the canned routes of [src/server/controller.js].

    Conventions of the embedding.
    - JavaScript strings are [string]s; the string methods the server calls
      ([split], [startsWith], [substring], [includes], [endsWith],
      [replace], [toUpperCase]) are defined in [JsString].
    - [undefined] is [None]; JavaScript truthiness is written out where the
      code relies on it ([a || b], [a && b]).
    - A handler is a function on the world it can touch: the shared
      controller state, the response of the current request, the file
      writes issued so far and the console.  An exception is a [Throw].
    - Node's [path] and [fs] modules are a [Platform] the server runs on. *)

From Stdlib Require Import Ascii String.
From stdpp Require Import gmap strings list pretty.

(** ** JavaScript string methods *)

Module JsString.

(** [s.split(sep)] for a one-character separator: never empty. *)
Fixpoint split (sep : ascii) (s : string) : list string :=
  match s with
  | EmptyString => [EmptyString]
  | String c s' =>
      if Ascii.eqb c sep then EmptyString :: split sep s'
      else match split sep s' with
           | h :: t => String c h :: t
           | [] => [String c EmptyString]
           end
  end.

(** [s.startsWith(p)] *)
Definition startsWith (p s : string) : bool := String.prefix p s.

(** [s.substring(n)] *)
Fixpoint substring (n : nat) (s : string) : string :=
  match n, s with
  | O, _ => s
  | S n', String _ s' => substring n' s'
  | S _, EmptyString => EmptyString
  end.

(** [s.includes(needle)] *)
Fixpoint includes (needle s : string) : bool :=
  String.prefix needle s ||
  match s with
  | EmptyString => false
  | String _ s' => includes needle s'
  end.

(** [s.endsWith(suffix)] *)
Definition endsWith (suffix s : string) : bool :=
  bool_decide
    (substring (String.length s - String.length suffix) s = suffix).

(** [s.replace(pat, repl)] for a string pattern: the first occurrence
    only.  [repl] is inserted as it is (no [$] pattern in it). *)
Fixpoint replace (pat repl s : string) : string :=
  if String.prefix pat s then repl +:+ substring (String.length pat) s
  else match s with
       | EmptyString => EmptyString
       | String c s' => String c (replace pat repl s')
       end.

Definition upper_char (c : ascii) : ascii :=
  let n := nat_of_ascii c in
  if (97 <=? n)%nat && (n <=? 122)%nat then ascii_of_nat (n - 32) else c.

(** [s.toUpperCase()] on the letters a-z; other characters are kept. *)
Fixpoint toUpperCase (s : string) : string :=
  match s with
  | EmptyString => EmptyString
  | String c s' => String (upper_char c) (toUpperCase s')
  end.

(** Truthiness of an optional string: [undefined] and [''] are falsy. *)
Definition truthy_str (o : option string) : bool :=
  match o with
  | Some (String _ _) => true
  | _ => false
  end.

(** [o || d] for an optional string [o]. *)
Definition or_str (o : option string) (d : string) : string :=
  match o with
  | Some (String c s) => String c s
  | _ => d
  end.

(** [arr.every((x, i) => f(x, i))], scanning from index [i]. *)
Fixpoint every_from {A} (f : A → nat → bool) (i : nat) (l : list A) : bool :=
  match l with
  | [] => true
  | x :: l' => f x i && every_from f (S i) l'
  end.

Definition every {A} (f : A → nat → bool) (l : list A) : bool :=
  every_from f 0 l.

(** [arr.forEach((x, i) => ...)] threading the object the callback
    updates, scanning from index [i]. *)
Fixpoint forEach_from {A St} (f : A → nat → St → St) (i : nat) (l : list A)
    (acc : St) : St :=
  match l with
  | [] => acc
  | x :: l' => forEach_from f (S i) l' (f x i acc)
  end.

Definition forEach {A St} (f : A → nat → St → St) (l : list A) (acc : St) : St :=
  forEach_from f 0 l acc.

End JsString.

Import JsString.

(** ** Route matcher ([ApiController.isRouteMatch], [getVariablesFromPath]) *)

(** The first argument of [isRouteMatch]: a route without its action. *)
Record RoutePattern := {
  pat_url : string;
  pat_method : option string;
}.

(** The second argument of [isRouteMatch]: [{ url, method? }]. *)
Record MatchRequest := {
  mr_url : string;
  mr_method : option string;
}.

(** [route.method && request.method &&
     route.method.toUpperCase() !== request.method.toUpperCase()] *)
Definition methodMismatch (rm qm : option string) : bool :=
  truthy_str rm && truthy_str qm &&
  negb (bool_decide (toUpperCase (default "" rm) = toUpperCase (default "" qm))).

Definition isRouteMatch (route : RoutePattern) (request : MatchRequest) : bool :=
  let pathParts := split "/" (pat_url route) in
  let requestParts := split "/" (mr_url request) in
  if negb (length pathParts =? length requestParts)%nat then false
  else if methodMismatch (pat_method route) (mr_method request) then false
  else every
         (λ part i,
            if startsWith ":" part then true
            else bool_decide (requestParts !! i = Some part))
         pathParts.

(** [obj[name] = v] on an object made by [{}], as a map from the names of
    its own properties to their values.  The assignment makes or updates
    an own property for every name but [__proto__]: that name is a setter
    the object inherits, which ignores a string, so that nothing is
    bound. *)
Definition setProperty (name v : string) (obj : gmap string string)
    : gmap string string :=
  if bool_decide (name = "__proto__") then obj else <[name := v]> obj.

(** [variables[part.substring(1)] = requestParts[i] || ''] for a part that
    starts with a colon; [variables] is the object the loop fills. *)
Definition bindVariable (requestParts : list string) (part : string) (i : nat)
    (variables : gmap string string) : gmap string string :=
  if startsWith ":" part
  then setProperty (substring 1 part) (or_str (requestParts !! i) "") variables
  else variables.

Definition getVariablesFromPath (path : string) (request_url : string)
    : gmap string string :=
  let requestWithoutQuery := default "" (split "?" request_url !! 0%nat) in
  let pathParts := split "/" path in
  let requestParts := split "/" requestWithoutQuery in
  forEach (bindVariable requestParts) pathParts ∅.

(** ** Responses, worlds and completions *)

(** A call on the [ServerResponse] of the current request.  The response is
    the sequence of calls made on it, oldest first.  The server itself
    gives [writeHead] the statuses 200, 400 and 500 only; the check
    [writeHead] makes on a status that comes from outside is
    [validStatus], with [createRoute]. *)
Inductive ResOp :=
  | WriteHead (status : nat) (headers : list (string * string))
  | Write (chunk : string)
  | End.

(** The status the client sees: the one of the last [writeHead], and the
    [http] module's default, 200, when the response ends without one. *)
Fixpoint statusCode_from (dflt : nat) (ops : list ResOp) : nat :=
  match ops with
  | [] => dflt
  | WriteHead st _ :: ops' => statusCode_from st ops'
  | _ :: ops' => statusCode_from dflt ops'
  end.

Definition statusCode (ops : list ResOp) : nat := statusCode_from 200 ops.

Fixpoint body (ops : list ResOp) : string :=
  match ops with
  | [] => ""
  | Write chunk :: ops' => chunk +:+ body ops'
  | _ :: ops' => body ops'
  end.

Definition ended (ops : list ResOp) : bool :=
  existsb (λ op, match op with End => true | _ => false end) ops.

(** A call of [writeFile] from [node:fs/promises]: the file, the data, and
    how its promise settles ([None]: fulfilled; [Some reason]: rejected). *)
Record FileWrite := {
  fw_file : string;
  fw_data : string;
  fw_outcome : option string;
}.

(** The values the controller state and the canned route data range over,
    with the operations of the language the code applies to them. *)
Class JsValue (V : Type) := {
  truthy : V → bool;             (* ToBoolean(v) *)
  emptyObject : V;               (* {} *)
  stringify : V → string;        (* JSON.stringify(v) *)
  stringifyPretty : V → string;  (* JSON.stringify(v, null, 2) *)
}.

(** What a request handler can reach. *)
Record World (V : Type) := {
  state : V;                     (* controller.state *)
  response : list ResOp;         (* the response of this request *)
  fileWrites : list FileWrite;   (* writeFile calls, oldest first *)
  console : list string;         (* console.log / console.error lines *)
}.
Arguments state {V} _.
Arguments response {V} _.
Arguments fileWrites {V} _.
Arguments console {V} _.

Definition respond {V} (ops : list ResOp) (w : World V) : World V :=
  {| state := state w; response := response w ++ ops;
     fileWrites := fileWrites w; console := console w |}.

Definition logLine {V} (line : string) (w : World V) : World V :=
  {| state := state w; response := response w;
     fileWrites := fileWrites w; console := console w ++ [line] |}.

Definition setState {V} (v : V) (w : World V) : World V :=
  {| state := v; response := response w;
     fileWrites := fileWrites w; console := console w |}.

(** A call either returns a value or throws, and in both cases leaves a
    world behind. *)
Inductive Completion (A W : Type) :=
  | Normal (a : A) (w : W)
  | Throw (err : string) (w : W).
Arguments Normal {A W} _ _.
Arguments Throw {A W} _ _.

(** [http.IncomingMessage], as far as the server reads it. *)
Record IncomingMessage := {
  url : option string;
  method : option string;
}.

Definition Handler (V : Type) : Type :=
  IncomingMessage → World V → Completion unit (World V).

(** ** Node's [path] and [fs] *)

Record Platform := {
  joinPath : string → string → string;      (* path.join(a, b) *)
  extname : string → string;                (* path.extname(p) *)
  cwd : string;                             (* process.cwd() *)
  existsSync : string → bool;
  isDirectory : string → bool;              (* statSync(p).isDirectory() *)
  readFileSync : string → string + string;  (* content, or the error thrown *)
  writeFileOutcome : string → string → option string;
}.

(** [writeFile(file, data, 'utf8').then()]: the write is issued and its
    promise is dropped. *)
Definition writeFile {V} (pf : Platform) (file data : string) (w : World V)
    : World V :=
  {| state := state w; response := response w;
     fileWrites := fileWrites w ++
       [{| fw_file := file; fw_data := data;
           fw_outcome := writeFileOutcome pf file data |}];
     console := console w |}.

(** ** The router ([ApiController]) *)

Record ApiControllerRoute (V : Type) := {
  route_url : string;
  route_method : option string;
  routeAction : Handler V;
}.
Arguments route_url {V} _.
Arguments route_method {V} _.
Arguments routeAction {V} _.

Record ApiController (V : Type) := {
  persistState : bool;
  stateSaveFileName : string;
  routes : list (ApiControllerRoute V);
}.
Arguments persistState {V} _.
Arguments stateSaveFileName {V} _.
Arguments routes {V} _.

Record ControllerArgs (V : Type) := {
  arg_routes : option (list (ApiControllerRoute V));
  arg_initialState : option V;
  arg_persistState : option bool;
  arg_stateSaveFile : option string;
}.
Arguments arg_routes {V} _.
Arguments arg_initialState {V} _.
Arguments arg_persistState {V} _.
Arguments arg_stateSaveFile {V} _.

(** [initialState || {}] *)
Definition or_value `{JsValue V} (o : option V) (d : V) : V :=
  match o with
  | Some v => if truthy v then v else d
  | None => d
  end.

(** The constructor: the controller and the state it starts from.  The
    asynchronous load of a saved state ([tryToLoadState]) is a later event
    and not part of the constructor's result. *)
Definition newApiController `{JsValue V} (args : ControllerArgs V)
    : ApiController V * V :=
  ({| persistState := default false (arg_persistState args);
      stateSaveFileName := or_str (arg_stateSaveFile args) "./server.state.temp";
      routes := default [] (arg_routes args) |},
   or_value (arg_initialState args) emptyObject).

Record CreateRouteArgs (V : Type) := {
  cr_url : string;
  cr_method : option string;
  cr_data : option V;
  cr_status : option nat;
}.
Arguments cr_url {V} _.
Arguments cr_method {V} _.
Arguments cr_data {V} _.
Arguments cr_status {V} _.

(** [status || 200] *)
Definition or_status (o : option nat) (d : nat) : nat :=
  match o with
  | Some (S n) => S n
  | _ => d
  end.

(** The statuses [res.writeHead] takes: 100 to 999.  For any other it
    throws a RangeError, before anything is written. *)
Definition validStatus (status : nat) : bool :=
  (100 <=? status)%nat && (status <=? 999)%nat.

(** [createRoute].  The data is a value of [V], which [JSON.stringify]
    prints; the action is the one [use] runs on the response of a request
    that nothing has written to yet. *)
Definition createRoute `{JsValue V} (args : CreateRouteArgs V)
    : ApiControllerRoute V :=
  {| route_url := cr_url args;
     route_method := Some (or_str (cr_method args) "GET");
     routeAction := λ req w,
       let status := or_status (cr_status args) 200 in
       if validStatus status
       then Normal tt
              (respond
                 [WriteHead status [("Content-Type", "application/json")];
                  Write (stringify (or_value (cr_data args) emptyObject));
                  End] w)
       else Throw ("RangeError [ERR_HTTP_INVALID_STATUS_CODE]: " +:+
                   "Invalid status code: " +:+ pretty status) w |}.

Record UseResult := { handled : bool }.

(** The callback [use] gives to [find]: the route against the request,
    whose [url] counts as [''] when it is not a string. *)
Definition routeMatches {V} (r : ApiControllerRoute V)
    (request : IncomingMessage) : bool :=
  let url := default "" (url request) in
  isRouteMatch {| pat_url := route_url r; pat_method := route_method r |}
               {| mr_url := url; mr_method := method request |}.

(** The route [use] picks: [this.routes.find(...)]. *)
Definition findRoute {V} (this : ApiController V) (request : IncomingMessage)
    : option (ApiControllerRoute V) :=
  List.find (λ r, routeMatches r request) (routes this).

(** What [use] does once it has found [route]: call its action, then
    save the state when [persistState] is on. *)
Definition runRoute `{JsValue V} (pf : Platform) (this : ApiController V)
    (route : ApiControllerRoute V) (request : IncomingMessage) (w : World V)
    : Completion UseResult (World V) :=
  match routeAction route request w with
  | Throw err w' => Throw err w'
  | Normal _ w' =>
      let w'' :=
        if persistState this
        then writeFile pf (stateSaveFileName this)
               (stringifyPretty (state w')) w'
        else w' in
      Normal {| handled := true |} w''
  end.

Definition use `{JsValue V} (pf : Platform) (this : ApiController V)
    (request : IncomingMessage) (w : World V)
    : Completion UseResult (World V) :=
  match findRoute this request with
  | None => Normal {| handled := false |} w
  | Some route => runRoute pf this route request w
  end.

Definition addRoute {V} (this : ApiController V) (route : ApiControllerRoute V)
    : ApiController V :=
  {| persistState := persistState this;
     stateSaveFileName := stateSaveFileName this;
     routes := routes this ++ [route] |}.

(** ** The server ([MiniServer]) *)

Record MiniServer (V : Type) := {
  staticFolder : string;
  root : string;
  port : nat;
  apiConteoller : option (ApiController V);
  hotRelaodfile : string;
  devHotReload : bool;
}.
Arguments staticFolder {V} _.
Arguments root {V} _.
Arguments port {V} _.
Arguments apiConteoller {V} _.
Arguments hotRelaodfile {V} _.
Arguments devHotReload {V} _.

Definition nl : string := String (ascii_of_nat 10) EmptyString.
Definition dq : string := String (ascii_of_nat 34) EmptyString.

(** The lines of a template literal, joined by line feeds. *)
Fixpoint lines (l : list string) : string :=
  match l with
  | [] => ""
  | [x] => x
  | x :: l' => x +:+ nl +:+ lines l'
  end.

Definition htmlHotReloadWorker : string :=
  lines [
    "onconnect = (e) => {";
    "    const port = e.ports[0];";
    "    const evtSource = new EventSource('http://localhost:35729');";
    "    evtSource.addEventListener('message', (e) => {";
    "        port.postMessage(e.data);";
    "    });";
    "    port.start();";
    "};";
    "" ].

Definition htmlHotReloadScript {V} (this : MiniServer V) : string :=
  lines [
    "<script>";
    "        try { ";
    "            const myWorker = new SharedWorker(" +:+ dq +:+
      hotRelaodfile this +:+ dq +:+ ", {";
    "                name: 'reload-worker',";
    "            });";
    "            myWorker.port.start();";
    "            myWorker.port.onmessage = (e) => {";
    "                if (e.data === 'reload') {";
    "                    window.location.reload();";
    "                }";
    "            };";
    "         } catch (err) {";
    "            console.error('Hot reload worker failed to start:', err);";
    "         }";
    "    </script>" ].

Definition contentTypes : gmap string string :=
  list_to_map [
    (".html", "text/html");
    (".css", "text/css");
    (".js", "text/javascript");
    (".json", "text/json");
    (".svg", "image/svg+xml") ].

(** The [try] block of [staticFileServer]: read [filename] and send it, or
    answer 500 with the error. *)
Definition sendFile {V} (pf : Platform) (this : MiniServer V)
    (filename : string) (w : World V) : World V :=
  match readFileSync pf filename with
  | inl file =>
      let file :=
        if endsWith ".html" filename && devHotReload this
        then replace "</head>" (htmlHotReloadScript this +:+ "</head>") file
        else file in
      let headers :=
        match contentTypes !! extname pf filename with
        | Some contentType => [("Content-Type", contentType)]
        | None => []
        end in
      respond [WriteHead 200 headers; Write file; End] w
  | inr err =>
      respond [WriteHead 500 [("Content-Type", "text/plain")];
               Write (err +:+ nl); End]
        (logLine err w)
  end.

Definition staticFileServer {V} (pf : Platform) (this : MiniServer V)
    (request : IncomingMessage) (w : World V) : World V :=
  let url := default "" (url request) in
  let basePath := joinPath pf (root this) (staticFolder this) in
  let filename := joinPath pf basePath url in
  if includes ".well-known" filename then respond [End] w
  else if devHotReload this &&
          bool_decide (replace "/" "" url = hotRelaodfile this)
  then respond [WriteHead 200 [("Content-Type", "text/javascript")];
                Write htmlHotReloadWorker; End] w
  else if negb (existsSync pf filename) then
    if includes "api" filename
    then respond [WriteHead 400 [("Content-Type", "text/plain")];
                  Write "API call not found"; End] w
    else sendFile pf this (joinPath pf (cwd pf) "/404.html")
           (logLine ("File not found: " +:+ filename) w)
  else if isDirectory pf filename
  then sendFile pf this (filename +:+ "/index.html") w
  else sendFile pf this filename w.

(** The [filename] that [staticFileServer] resolves the request to. *)
Definition resolvedFilename {V} (pf : Platform) (this : MiniServer V)
    (request : IncomingMessage) : string :=
  joinPath pf (joinPath pf (root this) (staticFolder this))
    (default "" (url request)).

(** The test for the worker script of the hot reload. *)
Definition isHotReloadRequest {V} (this : MiniServer V)
    (request : IncomingMessage) : bool :=
  devHotReload this &&
  bool_decide (replace "/" "" (default "" (url request)) = hotRelaodfile this).

(** [apiCallsServer]: [undefined] without a controller, else what [use]
    returns for the request with its [url] made a string. *)
Definition apiCallsServer `{JsValue V} (pf : Platform) (this : MiniServer V)
    (request : IncomingMessage) (w : World V)
    : Completion (option UseResult) (World V) :=
  match apiConteoller this with
  | None => Normal None w
  | Some controller =>
      let url := default "" (url request) in
      match use pf controller {| url := Some url; method := method request |} w with
      | Normal result w' => Normal (Some result) w'
      | Throw err w' => Throw err w'
      end
  end.

(** [serverMainHandler]: a [Throw] is the rejection of the promise the
    [async] method returns. *)
Definition serverMainHandler `{JsValue V} (pf : Platform) (this : MiniServer V)
    (request : IncomingMessage) (w : World V) : Completion unit (World V) :=
  match apiCallsServer pf this request w with
  | Throw err w' => Throw err w'
  | Normal result w' =>
      if match result with Some r => handled r | None => false end
      then Normal tt w'
      else Normal tt (staticFileServer pf this request w')
  end.

(** ** A JSON instance of [JsValue]

    JSON values with integer numbers, and [JSON.stringify] on them with and
    without indentation. *)

Module Json.

#[warnings="-register-all"]
Inductive t :=
  | JNull
  | JBool (b : bool)
  | JNum (n : Z)
  | JStr (s : string)
  | JArr (items : list t)
  | JObj (fields : list (string * t)).

Definition hexDigit (n : nat) : ascii :=
  ascii_of_nat (if (n <? 10)%nat then 48 + n else 87 + n).

(** One character inside a JSON string. *)
Definition quoteChar (c : ascii) : string :=
  let n := nat_of_ascii c in
  if (n =? 34)%nat then "\" +:+ dq
  else if (n =? 92)%nat then "\\"
  else if (n =? 8)%nat then "\b"
  else if (n =? 9)%nat then "\t"
  else if (n =? 10)%nat then "\n"
  else if (n =? 12)%nat then "\f"
  else if (n =? 13)%nat then "\r"
  else if (n <? 32)%nat
  then "\u00" +:+ String (hexDigit (n / 16)) (String (hexDigit (n mod 16)) "")
  else String c "".

Fixpoint quoteBody (s : string) : string :=
  match s with
  | EmptyString => ""
  | String c s' => quoteChar c +:+ quoteBody s'
  end.

Definition quote (s : string) : string := dq +:+ quoteBody s +:+ dq.

Fixpoint joinWith (sep : string) (l : list string) : string :=
  match l with
  | [] => ""
  | [x] => x
  | x :: l' => x +:+ sep +:+ joinWith sep l'
  end.

(** [gap] is the indentation unit, [indent] the current indentation. *)
Definition wrap (gap indent opening closing : string) (parts : list string)
    : string :=
  match parts with
  | [] => opening +:+ closing
  | _ =>
      if bool_decide (gap = "")
      then opening +:+ joinWith "," parts +:+ closing
      else opening +:+ nl +:+ indent +:+ gap +:+
           joinWith ("," +:+ nl +:+ indent +:+ gap) parts +:+
           nl +:+ indent +:+ closing
  end.

Fixpoint serialize (gap indent : string) (v : t) : string :=
  match v with
  | JNull => "null"
  | JBool true => "true"
  | JBool false => "false"
  | JNum n => pretty n
  | JStr s => quote s
  | JArr items =>
      wrap gap indent "[" "]" (map (serialize gap (indent +:+ gap)) items)
  | JObj fields =>
      wrap gap indent "{" "}"
        (map (λ kv, quote kv.1 +:+ (if bool_decide (gap = "") then ":" else ": ")
                    +:+ serialize gap (indent +:+ gap) kv.2) fields)
  end.

Definition toBoolean (v : t) : bool :=
  match v with
  | JNull => false
  | JBool b => b
  | JNum n => negb (n =? 0)%Z
  | JStr s => negb (bool_decide (s = ""))
  | JArr _ | JObj _ => true
  end.

#[global] Instance jsValue : JsValue t := {|
  truthy := toBoolean;
  emptyObject := JObj [];
  stringify := serialize "" "";
  stringifyPretty := serialize "  " "";
|}.

End Json.

(** ** A POSIX instance of [Platform]

    [path.join] and [path.extname] of Node on POSIX, over a file system
    given by its files and directories. *)

Module Posix.

(** Resolve [.], [..] and empty segments; [acc] is the result so far,
    last segment first. *)
Fixpoint normalizeSegments (allowAboveRoot : bool) (acc segs : list string)
    : list string :=
  match segs with
  | [] => rev acc
  | seg :: segs' =>
      if bool_decide (seg = "") || bool_decide (seg = ".")
      then normalizeSegments allowAboveRoot acc segs'
      else if bool_decide (seg = "..") then
        match acc with
        | last :: acc' =>
            if bool_decide (last = "..")
            then normalizeSegments allowAboveRoot
                   (if allowAboveRoot then ".." :: acc else acc) segs'
            else normalizeSegments allowAboveRoot acc' segs'
        | [] =>
            normalizeSegments allowAboveRoot
              (if allowAboveRoot then [".."] else []) segs'
        end
      else normalizeSegments allowAboveRoot (seg :: acc) segs'
  end.

Definition normalize (path : string) : string :=
  if bool_decide (path = "") then "."
  else
    let isAbsolute := startsWith "/" path in
    let trailingSeparator := endsWith "/" path in
    let p := Json.joinWith "/"
               (normalizeSegments (negb isAbsolute) [] (split "/" path)) in
    if bool_decide (p = "") then
      if isAbsolute then "/" else if trailingSeparator then "./" else "."
    else
      let p := if trailingSeparator then p +:+ "/" else p in
      if isAbsolute then "/" +:+ p else p.

Definition join (a b : string) : string :=
  match a, b with
  | EmptyString, EmptyString => "."
  | EmptyString, _ => normalize b
  | _, EmptyString => normalize a
  | _, _ => normalize (a +:+ "/" +:+ b)
  end.

(** The suffix of [s] that starts at its last dot. *)
Fixpoint fromLastDot (s : string) : option string :=
  match s with
  | EmptyString => None
  | String c s' =>
      match fromLastDot s' with
      | Some e => Some e
      | None => if Ascii.eqb c "." then Some s else None
      end
  end.

Fixpoint dropEmptyHead (l : list string) : list string :=
  match l with
  | EmptyString :: l' => dropEmptyHead l'
  | _ => l
  end.

(** The last path component, trailing separators ignored. *)
Definition lastComponent (path : string) : string :=
  default "" (head (dropEmptyHead (rev (split "/" path)))).

Definition extension (path : string) : string :=
  let base := lastComponent path in
  match fromLastDot base with
  | None => ""
  | Some e =>
      if bool_decide (e = base) || bool_decide (base = "..") then "" else e
  end.

(** The absolute path the file system looks up for [p]. *)
Definition resolve (workdir p : string) : string :=
  let full := if startsWith "/" p then p else workdir +:+ "/" +:+ p in
  "/" +:+ Json.joinWith "/" (normalizeSegments false [] (split "/" full)).

Definition platform (workdir : string) (files : gmap string string)
    (dirs : gset string) (writeOutcome : string → string → option string)
    : Platform :=
  {| joinPath := join;
     extname := extension;
     cwd := workdir;
     existsSync := λ p,
       bool_decide (is_Some (files !! resolve workdir p)) ||
       bool_decide (resolve workdir p ∈ dirs);
     isDirectory := λ p, bool_decide (resolve workdir p ∈ dirs);
     readFileSync := λ p,
       match files !! resolve workdir p with
       | Some content => inl content
       | None =>
           inr ("Error: ENOENT: no such file or directory, open '" +:+ p +:+ "'")
       end;
     writeFileOutcome := writeOutcome |}.

End Posix.

(** ** The canned route of [controller.js] *)

(** [baseRoutes]: one route built by [createRoute]. *)
Definition baseRoutes : list (ApiControllerRoute Json.t) :=
  [createRoute {| cr_url := "json2"; cr_method := Some "GET";
                  cr_data := Some (Json.JObj [("abc", Json.JNum 123)]);
                  cr_status := Some 200 |}].

(** The action of the route [/api/jsonTry]. *)
Definition jsonTryAction : Handler Json.t :=
  λ req w,
    Normal tt
      (respond [WriteHead 200 [("Content-Type", "application/json")];
                Write (stringify (Json.JObj [("abc", Json.JNum 123)]));
                End] w).

(** ** Sample servers

    Concrete platforms, controllers and requests on which the properties
    below are exercised. *)

Module Sample.

Import Json.

(** The state [controller.js] starts from: [{ count: 0 }]. *)
Definition state0 : Json.t := JObj [("count", JNum 0)].

Definition world0 : World Json.t :=
  {| state := state0; response := []; fileWrites := []; console := [] |}.

Definition files : gmap string string :=
  list_to_map [
    ("/srv/404.html", "<html><head></head><body>Not found</body></html>");
    ("/srv/public/index.html", "<html><head></head><body>Home</body></html>") ].

Definition dirs : gset string := {[ "/srv"; "/srv/public" ]}.

(** Writes succeed. *)
Definition platform : Platform :=
  Posix.platform "/srv" files dirs (λ _ _, None).

(** Writes are rejected. *)
Definition readOnlyPlatform : Platform :=
  Posix.platform "/srv" files dirs
    (λ file _, Some ("Error: EACCES: permission denied, open '" +:+ file +:+ "'")).

(** No [404.html] in the working directory. *)
Definition barePlatform : Platform :=
  Posix.platform "/srv" ∅ {[ "/srv"; "/srv/public" ]} (λ _ _, None).

Definition variableRoute : ApiControllerRoute Json.t :=
  createRoute {| cr_url := "/api/:id"; cr_method := None;
                 cr_data := Some (JStr "variable"); cr_status := None |}.

Definition literalRoute : ApiControllerRoute Json.t :=
  createRoute {| cr_url := "/api/first"; cr_method := None;
                 cr_data := Some (JStr "literal"); cr_status := Some 201 |}.

Definition jsonTryRoute : ApiControllerRoute Json.t :=
  {| route_url := "/api/jsonTry"; route_method := None;
     routeAction := jsonTryAction |}.

(** An action that changes the state and then throws. *)
Definition failingRoute : ApiControllerRoute Json.t :=
  {| route_url := "/fail"; route_method := None;
     routeAction := λ req w,
       Throw "Error: boom" (setState (JObj [("count", JNum 1)]) w) |}.

Definition probeRoute : ApiControllerRoute Json.t :=
  createRoute {| cr_url := "/.well-known/acme"; cr_method := None;
                 cr_data := None; cr_status := Some 404 |}.

(** A persisting controller, built as [controller.js] builds its own:
    constructor first, then [addRoute] calls. *)
Definition controller : ApiController Json.t :=
  addRoute
    (addRoute
       (addRoute
          (addRoute
             (newApiController
                {| arg_routes := Some baseRoutes;
                   arg_initialState := Some state0;
                   arg_persistState := Some true;
                   arg_stateSaveFile := None |}).1
             variableRoute)
          literalRoute)
       jsonTryRoute)
    failingRoute.

Definition server (c : option (ApiController Json.t)) (hot : bool)
    : MiniServer Json.t :=
  {| staticFolder := "public"; root := "/srv"; port := 4200;
     apiConteoller := c; hotRelaodfile := "hot-reload-k3x9f.js";
     devHotReload := hot |}.

Definition get (u : string) : IncomingMessage :=
  {| url := Some u; method := Some "GET" |}.

End Sample.

(** ** The legacy router (the earlier [ApiController], kept beside the
    current one)

    Routes carry a [route] string and no method, and [isRouteMatch] takes
    the path itself. *)

Module Legacy.

Definition isRouteMatch (path : string) (request_url : string) : bool :=
  let pathParts := split "/" path in
  let requestParts := split "/" request_url in
  if negb (length pathParts =? length requestParts)%nat then false
  else every
         (λ part i,
            if startsWith ":" part then true
            else bool_decide (requestParts !! i = Some part))
         pathParts.

Record ApiControllerRoute (V : Type) := {
  route : string;
  routeAction : Handler V;
}.
Arguments route {V} _.
Arguments routeAction {V} _.

Record ApiController (V : Type) := {
  persistState : bool;
  routes : list (ApiControllerRoute V);
}.
Arguments persistState {V} _.
Arguments routes {V} _.

(** [static stateSaveFileName] *)
Definition stateSaveFileName : string := "./server.state.temp".

Definition use `{JsValue V} (pf : Platform) (this : ApiController V)
    (request : IncomingMessage) (w : World V)
    : Completion UseResult (World V) :=
  let url := default "" (url request) in
  match List.find (λ r, isRouteMatch (route r) url) (routes this) with
  | None => Normal {| handled := false |} w
  | Some r =>
      match routeAction r request w with
      | Throw err w' => Throw err w'
      | Normal _ w' =>
          let w'' :=
            if persistState this
            then writeFile pf stateSaveFileName (stringifyPretty (state w')) w'
            else w' in
          Normal {| handled := true |} w''
      end
  end.

Definition addRoute {V} (this : ApiController V) (r : ApiControllerRoute V)
    : ApiController V :=
  {| persistState := persistState this; routes := routes this ++ [r] |}.

End Legacy.

(** A legacy route as the current router takes it: [route] becomes [url],
    and there is no method. *)
Definition migrateRoute {V} (r : Legacy.ApiControllerRoute V)
    : ApiControllerRoute V :=
  {| route_url := Legacy.route r; route_method := None;
     routeAction := Legacy.routeAction r |}.

Definition migrate {V} (c : Legacy.ApiController V) : ApiController V :=
  {| persistState := Legacy.persistState c;
     stateSaveFileName := Legacy.stateSaveFileName;
     routes := map migrateRoute (Legacy.routes c) |}.

(** ** Loading the saved state ([tryToLoadState]) *)

(** [JSON.parse(text)]: the value, or the error it throws. *)
Class JsonParse (V : Type) := {
  parse : string → V + string;
}.

(** [tryToLoadState], with [readFile] of [node:fs/promises] as the
    function from a file name to its text or to the reason of the
    rejection.  It runs as a later event than the constructor that
    starts it. *)
Definition tryToLoadState `{JsonParse V} (readFile : string → string + string)
    (this : ApiController V) (w : World V) : World V :=
  match readFile (stateSaveFileName this) with
  | inl text =>
      match parse text with
      | inl v => setState v w
      | inr err => logLine ("state not loaded " +:+ err) w
      end
  | inr err => logLine ("state not loaded " +:+ err) w
  end.

(** The end of the constructor: [if (this.persistState)
    this.tryToLoadState().then()]. *)
Definition loadOnStart `{JsonParse V} (readFile : string → string + string)
    (this : ApiController V) (w : World V) : World V :=
  if persistState this then tryToLoadState readFile this w else w.

(** ** Occurrences of a pattern *)

(** Whether [pat] occurs in [a +:+ tail] at a position inside [a]. *)
Fixpoint occursBefore (pat a tail : string) : bool :=
  match a with
  | EmptyString => false
  | String c a' =>
      String.prefix pat (a +:+ tail) || occursBefore pat a' tail
  end.

(** ** Reading JSON back

    [JSON.parse] on the values of [Json]: integers, strings with their
    escapes, arrays and objects.  [fuel] bounds the nesting and the number
    of elements read. *)

Module JsonParser.

Import Json.

Definition isWs (c : ascii) : bool :=
  let n := nat_of_ascii c in
  (n =? 32)%nat || (n =? 10)%nat || (n =? 13)%nat || (n =? 9)%nat.

Fixpoint skipWs (s : string) : string :=
  match s with
  | String c s' => if isWs c then skipWs s' else s
  | EmptyString => s
  end.

Definition digitOf (c : ascii) : option Z :=
  let n := nat_of_ascii c in
  if (48 <=? n)%nat && (n <=? 57)%nat then Some (Z.of_nat (n - 48)) else None.

(** The digits at the head of [s], read after [acc]. *)
Fixpoint digits (acc : Z) (s : string) : Z * string :=
  match s with
  | String c s' =>
      match digitOf c with
      | Some d => digits (10 * acc + d)%Z s'
      | None => (acc, s)
      end
  | EmptyString => (acc, s)
  end.

Definition startsDigit (s : string) : bool :=
  match s with
  | String c _ => bool_decide (is_Some (digitOf c))
  | EmptyString => false
  end.

(** A zero followed by a digit: not a JSON number. *)
Definition leadingZero (s : string) : bool :=
  match s with
  | String "0" rest => startsDigit rest
  | _ => false
  end.

Definition unsigned (s : string) : option (Z * string) :=
  if startsDigit s && negb (leadingZero s) then Some (digits 0 s) else None.

Definition number (s : string) : option (Z * string) :=
  match s with
  | String "-" s' => '(n, rest) ← unsigned s'; Some ((- n)%Z, rest)
  | _ => unsigned s
  end.

Definition hexOf (c : ascii) : option nat :=
  let n := nat_of_ascii c in
  if (48 <=? n)%nat && (n <=? 57)%nat then Some (n - 48)
  else if (97 <=? n)%nat && (n <=? 102)%nat then Some (n - 87)
  else if (65 <=? n)%nat && (n <=? 70)%nat then Some (n - 55)
  else None.

(** The characters of a string literal after its opening quote, up to the
    closing quote.  A [\u] escape is read when it names a character below
    256. *)
Fixpoint stringBody (s : string) : option (string * string) :=
  match s with
  | EmptyString => None
  | String c s' =>
      if (nat_of_ascii c =? 34)%nat then Some ("", s')
      else if (nat_of_ascii c =? 92)%nat then
        match s' with
        | String "u" (String a (String b (String x (String y s'')))) =>
            match hexOf a, hexOf b, hexOf x, hexOf y with
            | Some 0%nat, Some 0%nat, Some h, Some l =>
                '(body, rest) ← stringBody s'';
                Some (String (ascii_of_nat (16 * h + l)) body, rest)
            | _, _, _, _ => None
            end
        | String e s'' =>
            let n := nat_of_ascii e in
            let unescaped :=
              if (n =? 34)%nat || (n =? 92)%nat || (n =? 47)%nat then Some e
              else if (n =? 98)%nat then Some (ascii_of_nat 8)
              else if (n =? 116)%nat then Some (ascii_of_nat 9)
              else if (n =? 110)%nat then Some (ascii_of_nat 10)
              else if (n =? 102)%nat then Some (ascii_of_nat 12)
              else if (n =? 114)%nat then Some (ascii_of_nat 13)
              else None in
            ch ← unescaped;
            '(body, rest) ← stringBody s'';
            Some (String ch body, rest)
        | EmptyString => None
        end
      else if (nat_of_ascii c <? 32)%nat then None
      else '(body, rest) ← stringBody s'; Some (String c body, rest)
  end.

Fixpoint value (fuel : nat) (s : string) : option (Json.t * string) :=
  match fuel with
  | O => None
  | S fuel' =>
      let s := skipWs s in
      if String.prefix "null" s then Some (JNull, substring 4 s)
      else if String.prefix "true" s then Some (JBool true, substring 4 s)
      else if String.prefix "false" s then Some (JBool false, substring 5 s)
      else match s with
           | String c s' =>
               if (nat_of_ascii c =? 34)%nat then
                 '(str, rest) ← stringBody s'; Some (JStr str, rest)
               else if Ascii.eqb c "[" then
                 match skipWs s' with
                 | String "]" rest => Some (JArr [], rest)
                 | _ => '(items, rest) ← elements fuel' s'; Some (JArr items, rest)
                 end
               else if Ascii.eqb c "{" then
                 match skipWs s' with
                 | String "}" rest => Some (JObj [], rest)
                 | _ => '(fields, rest) ← members fuel' s'; Some (JObj fields, rest)
                 end
               else '(n, rest) ← number s; Some (JNum n, rest)
           | EmptyString => None
           end
  end
with elements (fuel : nat) (s : string) : option (list Json.t * string) :=
  match fuel with
  | O => None
  | S fuel' =>
      '(v, rest) ← value fuel' s;
      match skipWs rest with
      | String "," rest' =>
          '(vs, rest'') ← elements fuel' rest'; Some (v :: vs, rest'')
      | String "]" rest' => Some ([v], rest')
      | _ => None
      end
  end
with members (fuel : nat) (s : string)
    : option (list (string * Json.t) * string) :=
  match fuel with
  | O => None
  | S fuel' =>
      match skipWs s with
      | String q s1 =>
          if (nat_of_ascii q =? 34)%nat then
            '(key, rest) ← stringBody s1;
            match skipWs rest with
            | String ":" rest1 =>
                '(v, rest2) ← value fuel' rest1;
                match skipWs rest2 with
                | String "," rest3 =>
                    '(kvs, rest4) ← members fuel' rest3;
                    Some ((key, v) :: kvs, rest4)
                | String "}" rest3 => Some ([(key, v)], rest3)
                | _ => None
                end
            | _ => None
            end
          else None
      | EmptyString => None
      end
  end.

Definition parseText (text : string) : Json.t + string :=
  match value (S (String.length text)) text with
  | Some (v, rest) =>
      if bool_decide (skipWs rest = "") then inl v
      else inr "SyntaxError: Unexpected non-whitespace character after JSON"
  | None => inr "SyntaxError: Unexpected token in JSON"
  end.

#[global] Instance jsonParse : JsonParse Json.t := {| parse := parseText |}.

End JsonParser.

(** ** More sample data *)

Module Demo.

(** A file system with a file outside the static folder. *)
Definition files : gmap string string :=
  list_to_map [
    ("/srv/404.html", "<html><head></head><body>Not found</body></html>");
    ("/srv/secret.txt", "s3cret");
    ("/srv/public/index.html", "<html><head></head><body>Home</body></html>");
    ("/srv/public/plain.html", "<html><body>No head</body></html>");
    ("/srv/public/logo.svg", "<svg></svg>") ].

Definition dirs : gset string :=
  {[ "/srv"; "/srv/public"; "/srv/public/empty" ]}.

Definition platform : Platform :=
  Posix.platform "/srv" files dirs (λ _ _, None).

(** A persisting controller whose only route replaces the state. *)
Definition setCountRoute (n : Z) : ApiControllerRoute Json.t :=
  {| route_url := "/api/set"; route_method := None;
     routeAction := λ req w,
       Normal tt
         (respond [WriteHead 200 [("Content-Type", "text/plain")];
                   Write "ok"; End]
            (setState (Json.JObj [("count", Json.JNum n)]) w)) |}.

Definition writer : ApiController Json.t :=
  addRoute
    (newApiController
       {| arg_routes := None; arg_initialState := Some Sample.state0;
          arg_persistState := Some true; arg_stateSaveFile := None |}).1
    (setCountRoute 5).

(** [readFile] on a disk that holds [text] in the state file. *)
Definition readSaved (text : string) : string → string + string :=
  λ file,
    if bool_decide (file = "./server.state.temp") then inl text
    else inr ("Error: ENOENT: no such file or directory, open '" +:+ file +:+ "'").

End Demo.

(** * Properties *)

(** ** The model on small inputs *)

Example split_path : split "/" "/api/second/:id" = [""; "api"; "second"; ":id"].
Proof. reflexivity. Qed.

Example split_empty : split "/" "" = [""].
Proof. reflexivity. Qed.

Example split_query : split "?" "/a?x=1?y" = ["/a"; "x=1"; "y"].
Proof. reflexivity. Qed.

Example replace_first_only : replace "/" "" "/a/b" = "a/b".
Proof. reflexivity. Qed.

Example includes_inside : includes "api" "/srv/public/capital.css" = true.
Proof. reflexivity. Qed.

Example endsWith_html :
  endsWith ".html" "/srv/404.html" = true ∧ endsWith ".html" "html" = false.
Proof. split; reflexivity. Qed.

Example upper_mixed : toUpperCase "Get-1" = "GET-1".
Proof. reflexivity. Qed.

(** Different segment counts never match. *)
Example match_counts_differ :
  isRouteMatch {| pat_url := "/api/:id"; pat_method := None |}
               {| mr_url := "/api/1/2"; mr_method := Some "GET" |} = false.
Proof. reflexivity. Qed.

(** A GET route does not match a POST of the same path. *)
Example match_get_post :
  isRouteMatch {| pat_url := "/api/first"; pat_method := Some "GET" |}
               {| mr_url := "/api/first"; mr_method := Some "POST" |} = false.
Proof. reflexivity. Qed.

Example join_static :
  Posix.join (Posix.join "/srv" "public") "/a/../b//c.html" = "/srv/public/b/c.html".
Proof. reflexivity. Qed.

Example extension_cases :
  map Posix.extension ["/srv/404.html"; "/a/.bashrc"; "a.b/c"; "x.tar.gz/"; ".."]
  = [".html"; ""; ""; ".gz"; ""].
Proof. reflexivity. Qed.

Example pretty_state :
  stringifyPretty (Json.JObj [("count", Json.JNum 5)])
  = lines ["{"; "  " +:+ dq +:+ "count" +:+ dq +:+ ": 5"; "}"].
Proof. reflexivity. Qed.

(** The directory index, with the reload script put before [</head>]. *)
Example serve_index_hot :
  body (response (staticFileServer Sample.platform (Sample.server None true)
                    (Sample.get "/") Sample.world0))
  = "<html><head>" +:+ htmlHotReloadScript (Sample.server None true)
    +:+ "</head><body>Home</body></html>".
Proof. by vm_compute. Qed.

(** ** Strings and arrays *)

Section StringFacts.

Lemma split_nonempty sep s : split sep s ≠ [].
Proof.
  destruct s as [|c s]; simpl; [done|].
  destruct (Ascii.eqb c sep); [done|].
  destruct (split sep s); done.
Qed.

Lemma prefix_char a c s :
  String.prefix (String a "") (String c s) = bool_decide (a = c).
Proof.
  simpl. destruct (ascii_dec a c) as [->|Hne].
  - rewrite bool_decide_true by done. by destruct s.
  - by rewrite bool_decide_false.
Qed.

Lemma includes_char_cons sep c s :
  includes (String sep "") (String c s) = false →
  Ascii.eqb c sep = false ∧ includes (String sep "") s = false.
Proof.
  cbn [includes]. rewrite prefix_char. intros H.
  apply orb_false_iff in H as [Hc Hs]. split; [|done].
  apply bool_decide_eq_false in Hc. apply Ascii.eqb_neq. congruence.
Qed.

(** A string without the separator is its own single segment. *)
Lemma split_absent sep s :
  includes (String sep "") s = false → split sep s = [s].
Proof.
  induction s as [|c s IH]; [done|].
  intros [Hc Hs]%includes_char_cons. simpl. by rewrite Hc, (IH Hs).
Qed.

(** The first segment stops at the first separator. *)
Lemma split_first sep u q :
  includes (String sep "") u = false →
  split sep (u +:+ String sep q) = u :: split sep q.
Proof.
  induction u as [|c u IH].
  - intros _. simpl. by rewrite Ascii.eqb_refl.
  - intros [Hc Hs]%includes_char_cons. simpl. by rewrite Hc, (IH Hs).
Qed.

Lemma every_from_spec {A} (f : A → nat → bool) (l : list A) (i : nat) :
  every_from f i l = true ↔ ∀ j x, l !! j = Some x → f x (i + j) = true.
Proof.
  revert i. induction l as [|y l IH]; intros i; simpl.
  - split; [intros _ j x Hj; by rewrite lookup_nil in Hj | done].
  - rewrite andb_true_iff, IH. split.
    + intros [Hy Hl] [|j] x Hj; simpl in Hj.
      * injection Hj as <-. by rewrite Nat.add_0_r.
      * rewrite Nat.add_succ_r. by apply Hl.
    + intros H. split.
      * specialize (H 0%nat y eq_refl). by rewrite Nat.add_0_r in H.
      * intros j x Hj. specialize (H (S j) x Hj).
        by rewrite Nat.add_succ_r in H.
Qed.

Lemma every_spec {A} (f : A → nat → bool) (l : list A) :
  every f l = true ↔ ∀ j x, l !! j = Some x → f x j = true.
Proof. unfold every. by rewrite every_from_spec. Qed.

Lemma toUpperCase_idemp s : toUpperCase (toUpperCase s) = toUpperCase s.
Proof.
  induction s as [|c s IH]; simpl; [done|]. rewrite IH. f_equal.
  clear. destruct c as [[] [] [] [] [] [] [] []]; by vm_compute.
Qed.

Lemma truthy_toUpperCase s :
  truthy_str (Some (toUpperCase s)) = truthy_str (Some s).
Proof. by destruct s. Qed.

End StringFacts.

(** ** The route matcher *)

Section RouteMatcher.

Lemma methodMismatch_falsy_l rm qm :
  truthy_str rm = false → methodMismatch rm qm = false.
Proof. unfold methodMismatch. by intros ->. Qed.

Lemma methodMismatch_same rm qm :
  toUpperCase rm = toUpperCase qm →
  methodMismatch (Some rm) (Some qm) = false.
Proof.
  unfold methodMismatch. simpl. intros ->.
  rewrite bool_decide_true by done. simpl. by rewrite andb_false_r.
Qed.

Lemma methodMismatch_differ rm qm :
  truthy_str (Some rm) = true → truthy_str (Some qm) = true →
  toUpperCase rm ≠ toUpperCase qm →
  methodMismatch (Some rm) (Some qm) = true.
Proof.
  unfold methodMismatch. intros -> -> Hne. simpl.
  by rewrite bool_decide_false.
Qed.

Lemma methodMismatch_upper rm qm :
  methodMismatch (Some (toUpperCase rm)) (Some (toUpperCase qm))
  = methodMismatch (Some rm) (Some qm).
Proof.
  unfold methodMismatch. simpl default.
  by rewrite !truthy_toUpperCase, !toUpperCase_idemp.
Qed.

(** The three tests of [isRouteMatch], one after the other. *)
Lemma isRouteMatch_spec route request :
  isRouteMatch route request = true ↔
    length (split "/" (pat_url route)) = length (split "/" (mr_url request)) ∧
    methodMismatch (pat_method route) (mr_method request) = false ∧
    ∀ i part, split "/" (pat_url route) !! i = Some part →
              startsWith ":" part = false →
              split "/" (mr_url request) !! i = Some part.
Proof.
  unfold isRouteMatch.
  destruct (Nat.eqb_spec (length (split "/" (pat_url route)))
              (length (split "/" (mr_url request)))) as [Hlen|Hlen]; simpl;
    [|split; [done | by intros [? _]]].
  destruct (methodMismatch _ _); [split; [done | by intros (_ & ? & _)]|].
  rewrite every_spec. split.
  - intros H. do 2 (split; [done|]). intros i part Hi Hlit.
    specialize (H i part Hi). rewrite Hlit in H.
    by apply bool_decide_eq_true in H.
  - intros (_ & _ & H) i part Hi.
    destruct (startsWith ":" part) eqn:Hlit; [done|].
    apply bool_decide_eq_true. by apply H.
Qed.

(** Only the method of the route decides whether a filter applies. *)
Lemma isRouteMatch_no_filter u rm u' qm qm' :
  truthy_str rm = false →
  isRouteMatch {| pat_url := u; pat_method := rm |}
               {| mr_url := u'; mr_method := qm |}
  = isRouteMatch {| pat_url := u; pat_method := rm |}
                 {| mr_url := u'; mr_method := qm' |}.
Proof.
  intros Hrm. unfold isRouteMatch. simpl.
  by rewrite !(methodMismatch_falsy_l rm) by done.
Qed.

(** Patterns and requests of different segment counts never match. *)
Lemma isRouteMatch_counts_differ route request :
  length (split "/" (pat_url route)) ≠ length (split "/" (mr_url request)) →
  isRouteMatch route request = false.
Proof.
  intros Hlen. unfold isRouteMatch.
  by destruct (Nat.eqb_spec (length (split "/" (pat_url route)))
                 (length (split "/" (mr_url request)))).
Qed.

(** Upper-casing both methods does not change the outcome. *)
Lemma isRouteMatch_upper u rm u' qm :
  isRouteMatch {| pat_url := u; pat_method := Some (toUpperCase rm) |}
               {| mr_url := u'; mr_method := Some (toUpperCase qm) |}
  = isRouteMatch {| pat_url := u; pat_method := Some rm |}
                 {| mr_url := u'; mr_method := Some qm |}.
Proof. unfold isRouteMatch. simpl. by rewrite methodMismatch_upper. Qed.

End RouteMatcher.

(** C1: the request path is split as it arrives, query string included.
    The literal route [/api/first] matches a GET of [/api/first] and does
    not match a GET of [/api/first?x=1], whose last segment is
    [first?x=1]; [getVariablesFromPath], next to it, does drop the query
    string and reads both requests alike. *)
Theorem C1_query_string_kept_in_match :
  isRouteMatch {| pat_url := "/api/first"; pat_method := None |}
               {| mr_url := "/api/first"; mr_method := Some "GET" |} = true ∧
  isRouteMatch {| pat_url := "/api/first"; pat_method := None |}
               {| mr_url := "/api/first?x=1"; mr_method := Some "GET" |} = false ∧
  split "/" "/api/first?x=1" = [""; "api"; "first?x=1"] ∧
  getVariablesFromPath "/api/first" "/api/first?x=1"
  = getVariablesFromPath "/api/first" "/api/first".
Proof. repeat split; by vm_compute. Qed.

(** C3, as stated, fails: the route [{ url: '/api/first' }] that
    [controller.js] registers without a method matches a POST of
    [/api/first]. *)
Lemma C3_counterexample :
  pat_method {| pat_url := "/api/first"; pat_method := None |} = None ∧
  toUpperCase "POST" ≠ toUpperCase "GET" ∧
  isRouteMatch {| pat_url := "/api/first"; pat_method := None |}
               {| mr_url := "/api/first"; mr_method := Some "POST" |} = true.
Proof. repeat split; by vm_compute. Qed.

(** C3, amended: the default GET is set by [createRoute] only.  A route
    built by [createRoute] without a method carries GET and does not match
    a request of another method; a route that carries no method has no
    method filter, so the method of the request plays no part; and when
    both carry a method, they are compared after upper-casing: equal
    upper-case forms never block a match, different ones always do. *)
Theorem C3_method_filter :
  (∀ `{JsValue V} (args : CreateRouteArgs V) u' qm,
     truthy_str (cr_method args) = false →
     truthy_str (Some qm) = true →
     toUpperCase qm ≠ "GET" →
     route_method (createRoute args) = Some "GET" ∧
     isRouteMatch {| pat_url := route_url (createRoute args);
                     pat_method := route_method (createRoute args) |}
                  {| mr_url := u'; mr_method := Some qm |} = false) ∧
  (∀ u rm u' qm qm',
     truthy_str rm = false →
     isRouteMatch {| pat_url := u; pat_method := rm |}
                  {| mr_url := u'; mr_method := qm |}
     = isRouteMatch {| pat_url := u; pat_method := rm |}
                    {| mr_url := u'; mr_method := qm' |}) ∧
  (∀ u rm u' qm,
     toUpperCase rm = toUpperCase qm →
     isRouteMatch {| pat_url := u; pat_method := Some rm |}
                  {| mr_url := u'; mr_method := Some qm |}
     = isRouteMatch {| pat_url := u; pat_method := None |}
                    {| mr_url := u'; mr_method := Some qm |}) ∧
  (∀ u rm u' qm,
     truthy_str (Some rm) = true → truthy_str (Some qm) = true →
     toUpperCase rm ≠ toUpperCase qm →
     isRouteMatch {| pat_url := u; pat_method := Some rm |}
                  {| mr_url := u'; mr_method := Some qm |} = false).
Proof.
  split; [|split; [|split]].
  - intros V HV args u' qm Hm Hq Hne.
    assert (Hget : or_str (cr_method args) "GET" = "GET").
    { destruct (cr_method args) as [[|c s]|]; done. }
    split; [simpl; by rewrite Hget|].
    unfold isRouteMatch; simpl. rewrite Hget.
    rewrite methodMismatch_differ by done.
    by destruct (negb _).
  - intros. by apply isRouteMatch_no_filter.
  - intros u rm u' qm Heq. unfold isRouteMatch; simpl.
    by rewrite methodMismatch_same.
  - intros u rm u' qm Hr Hq Hne. unfold isRouteMatch; simpl.
    rewrite methodMismatch_differ by done. by destruct (negb _).
Qed.

Lemma C3_witness :
  (route_method (createRoute (V:=Json.t)
     {| cr_url := "/api/first"; cr_method := None; cr_data := None;
        cr_status := None |}) = Some "GET" ∧
   isRouteMatch {| pat_url := "/api/first"; pat_method := Some "GET" |}
                {| mr_url := "/api/first"; mr_method := Some "POST" |} = false) ∧
  isRouteMatch {| pat_url := "/api/first"; pat_method := None |}
               {| mr_url := "/api/first"; mr_method := Some "POST" |}
  = isRouteMatch {| pat_url := "/api/first"; pat_method := None |}
                 {| mr_url := "/api/first"; mr_method := Some "GET" |} ∧
  isRouteMatch {| pat_url := "/api/first"; pat_method := Some "get" |}
               {| mr_url := "/api/first"; mr_method := Some "Get" |}
  = isRouteMatch {| pat_url := "/api/first"; pat_method := None |}
                 {| mr_url := "/api/first"; mr_method := Some "Get" |} ∧
  isRouteMatch {| pat_url := "/api/first"; pat_method := Some "get" |}
               {| mr_url := "/api/first"; mr_method := Some "POST" |} = false.
Proof.
  destruct C3_method_filter as (Hcreate & Hnone & Hsame & Hdiffer).
  split; [|split; [|split]].
  - apply (Hcreate Json.t Json.jsValue
             {| cr_url := "/api/first"; cr_method := None; cr_data := None;
                cr_status := None |} "/api/first" "POST");
      [reflexivity | reflexivity | by vm_compute].
  - apply Hnone. reflexivity.
  - apply Hsame. reflexivity.
  - apply Hdiffer; [reflexivity | reflexivity | by vm_compute].
Defined.

(** C4, as stated, fails: [/api/second/] has as many segments as
    [/api/second/:id], its last segment is the empty string, and the
    pattern matches it. *)
Lemma C4_counterexample :
  split "/" "/api/second/:id" = [""; "api"; "second"; ":id"] ∧
  split "/" "/api/second/" = [""; "api"; "second"; ""] ∧
  isRouteMatch {| pat_url := "/api/second/:id"; pat_method := None |}
               {| mr_url := "/api/second/"; mr_method := Some "GET" |} = true.
Proof. repeat split; by vm_compute. Qed.

(** C4, amended: a colon-prefixed segment matches any value of the
    corresponding request segment, the empty string included.  With equal
    segment counts and no method mismatch, the pattern matches exactly
    when every segment of it that does not start with a colon equals the
    request segment at its position. *)
Theorem C4_variable_segment_matches_any route request :
  length (split "/" (pat_url route)) = length (split "/" (mr_url request)) →
  methodMismatch (pat_method route) (mr_method request) = false →
  isRouteMatch route request = true ↔
    ∀ i part, split "/" (pat_url route) !! i = Some part →
              startsWith ":" part = false →
              split "/" (mr_url request) !! i = Some part.
Proof.
  intros Hlen Hmeth. rewrite isRouteMatch_spec.
  split; [by intros (_ & _ & H) | by intros H].
Qed.

Lemma C4_witness :
  isRouteMatch {| pat_url := "/api/second/:id"; pat_method := None |}
               {| mr_url := "/api/second/"; mr_method := Some "GET" |} = true.
Proof.
  apply C4_variable_segment_matches_any; [reflexivity | reflexivity |].
  intros [|[|[|[|i]]]] part Hi Hlit; vm_compute in Hi;
    try (injection Hi as <-); try done.
Defined.

(** ** The router *)

Section Router.

Context `{JsValue V}.
Implicit Types (this : ApiController V) (route r : ApiControllerRoute V).
Implicit Types (request : IncomingMessage) (w : World V).

(** [find] stops at the first element that passes the test. *)
Lemma find_first {A} (f : A → bool) (pre : list A) (x : A) (post : list A) :
  Forall (λ y, f y = false) pre → f x = true →
  List.find f (pre ++ x :: post) = Some x.
Proof.
  intros Hpre Hx. induction Hpre as [|y pre Hy _ IH]; simpl.
  - by rewrite Hx.
  - by rewrite Hy.
Qed.

Lemma find_no_match {A} (f : A → bool) (l : list A) :
  Forall (λ y, f y = false) l → List.find f l = None.
Proof.
  induction 1 as [|y l Hy _ IH]; simpl; [done|]. by rewrite Hy.
Qed.

Lemma find_app_found {A} (f : A → bool) (l l' : list A) (x : A) :
  List.find f l = Some x → List.find f (l ++ l') = Some x.
Proof.
  induction l as [|y l IH]; simpl; [done|]. destruct (f y); auto.
Qed.

Lemma findRoute_first this request pre route post :
  routes this = pre ++ route :: post →
  Forall (λ r, routeMatches r request = false) pre →
  routeMatches route request = true →
  findRoute this request = Some route.
Proof.
  intros Hroutes Hpre Hroute. unfold findRoute. rewrite Hroutes.
  by apply find_first.
Qed.

Lemma findRoute_addRoute this request route later :
  findRoute this request = Some route →
  findRoute (addRoute this later) request = Some route.
Proof. unfold findRoute, addRoute. simpl. apply find_app_found. Qed.

Lemma use_found pf this request w route :
  findRoute this request = Some route →
  use pf this request w = runRoute pf this route request w.
Proof. unfold use. by intros ->. Qed.

End Router.

(** C5: the first route, in insertion order, that matches the request is
    the one whose action [use] calls.  When the routes before [route] do
    not match and [route] does, [use] calls the action of [route] on the
    request and gives back what that action did (followed by the save of
    the state, or the exception it threw); the action of no other route
    takes part, whatever comes after [route] in the table, and a route
    added afterwards by [addRoute] changes nothing of this. *)
Theorem C5_first_matching_route_wins `{JsValue V} (pf : Platform)
    (this : ApiController V) (request : IncomingMessage) (w : World V)
    (pre : list (ApiControllerRoute V)) (route : ApiControllerRoute V)
    (post : list (ApiControllerRoute V)) (later : ApiControllerRoute V) :
  routes this = pre ++ route :: post →
  Forall (λ r, routeMatches r request = false) pre →
  routeMatches route request = true →
  findRoute this request = Some route ∧
  use pf this request w
  = match routeAction route request w with
    | Throw err w' => Throw err w'
    | Normal _ w' =>
        Normal {| handled := true |}
          (if persistState this
           then writeFile pf (stateSaveFileName this)
                  (stringifyPretty (state w')) w'
           else w')
    end ∧
  routes (addRoute this later) = pre ++ route :: post ++ [later] ∧
  use pf (addRoute this later) request w
  = match routeAction route request w with
    | Throw err w' => Throw err w'
    | Normal _ w' =>
        Normal {| handled := true |}
          (if persistState this
           then writeFile pf (stateSaveFileName this)
                  (stringifyPretty (state w')) w'
           else w')
    end.
Proof.
  intros Hroutes Hpre Hroute.
  pose proof (findRoute_first _ _ _ _ _ Hroutes Hpre Hroute) as Hfind.
  repeat split.
  - done.
  - by rewrite (use_found _ _ _ _ _ Hfind).
  - simpl. by rewrite Hroutes, <- app_assoc.
  - by rewrite (use_found _ _ _ _ _ (findRoute_addRoute _ _ _ later Hfind)).
Qed.

(** A variable route registered before a literal route of the same shape
    answers the request both match: the body sent is the one of the
    variable route, also after the literal route is added once more. *)
Lemma C5_witness :
  use Sample.platform Sample.controller (Sample.get "/api/first") Sample.world0
  = Normal {| handled := true |}
      {| state := Sample.state0;
         response := [WriteHead 200 [("Content-Type", "application/json")];
                      Write (dq +:+ "variable" +:+ dq); End];
         fileWrites :=
           [{| fw_file := "./server.state.temp";
               fw_data := lines ["{"; "  " +:+ dq +:+ "count" +:+ dq +:+ ": 0"; "}"];
               fw_outcome := None |}];
         console := [] |} ∧
  use Sample.platform (addRoute Sample.controller Sample.literalRoute)
    (Sample.get "/api/first") Sample.world0
  = Normal {| handled := true |}
      {| state := Sample.state0;
         response := [WriteHead 200 [("Content-Type", "application/json")];
                      Write (dq +:+ "variable" +:+ dq); End];
         fileWrites :=
           [{| fw_file := "./server.state.temp";
               fw_data := lines ["{"; "  " +:+ dq +:+ "count" +:+ dq +:+ ": 0"; "}"];
               fw_outcome := None |}];
         console := [] |}.
Proof.
  destruct (C5_first_matching_route_wins Sample.platform Sample.controller
              (Sample.get "/api/first") Sample.world0 baseRoutes
              Sample.variableRoute
              [Sample.literalRoute; Sample.jsonTryRoute; Sample.failingRoute]
              Sample.literalRoute)
    as (_ & Huse & _ & Hlater).
  - reflexivity.
  - repeat constructor.
  - reflexivity.
  - split.
    + etransitivity; [exact Huse | reflexivity].
    + etransitivity; [exact Hlater | reflexivity].
Defined.

(** C7: when no registered route matches the request, [use] returns
    [{ handled: false }] and leaves the world as it found it: the state,
    the response, the file writes and the console are those it was given,
    whatever the actions of the routes would do. *)
Theorem C7_no_match_no_effect `{JsValue V} (pf : Platform)
    (this : ApiController V) (request : IncomingMessage) (w : World V) :
  Forall (λ r, routeMatches r request = false) (routes this) →
  use pf this request w = Normal {| handled := false |} w.
Proof.
  intros Hnone. unfold use, findRoute. by rewrite find_no_match.
Qed.

Lemma C7_witness :
  use Sample.platform Sample.controller (Sample.get "/api/missing/x")
    Sample.world0
  = Normal {| handled := false |} Sample.world0.
Proof.
  apply C7_no_match_no_effect. repeat constructor.
Defined.

(** C8: when a route handles the request and [persistState] is on, [use]
    returns [{ handled: true }] and has issued one more [writeFile]: to
    the backing file, with [JSON.stringify(state, null, 2)] of the state
    the action left, changed or not.  How the write settles, rejection
    included, is recorded with the write and does not reach the result. *)
Theorem C8_state_saved_after_handled `{JsValue V} (pf : Platform)
    (this : ApiController V) (request : IncomingMessage) (w w' : World V)
    (route : ApiControllerRoute V) :
  findRoute this request = Some route →
  persistState this = true →
  routeAction route request w = Normal tt w' →
  use pf this request w
  = Normal {| handled := true |}
      {| state := state w';
         response := response w';
         fileWrites := fileWrites w' ++
           [{| fw_file := stateSaveFileName this;
               fw_data := stringifyPretty (state w');
               fw_outcome := writeFileOutcome pf (stateSaveFileName this)
                               (stringifyPretty (state w')) |}];
         console := console w' |}.
Proof.
  intros Hfind Hpersist Haction.
  rewrite (use_found _ _ _ _ _ Hfind). unfold runRoute.
  by rewrite Haction, Hpersist.
Qed.

(** The action leaves the state alone, the write is rejected, and the
    request is handled all the same. *)
Lemma C8_witness :
  use Sample.readOnlyPlatform Sample.controller (Sample.get "/api/first")
    Sample.world0
  = Normal {| handled := true |}
      {| state := Sample.state0;
         response := [WriteHead 200 [("Content-Type", "application/json")];
                      Write (dq +:+ "variable" +:+ dq); End];
         fileWrites :=
           [{| fw_file := "./server.state.temp";
               fw_data := lines ["{"; "  " +:+ dq +:+ "count" +:+ dq +:+ ": 0"; "}"];
               fw_outcome :=
                 Some "Error: EACCES: permission denied, open './server.state.temp'" |}];
         console := [] |}.
Proof.
  etransitivity.
  - apply (C8_state_saved_after_handled Sample.readOnlyPlatform
             Sample.controller (Sample.get "/api/first") Sample.world0
             (respond [WriteHead 200 [("Content-Type", "application/json")];
                       Write (dq +:+ "variable" +:+ dq); End] Sample.world0)
             Sample.variableRoute).
    + reflexivity.
    + reflexivity.
    + reflexivity.
  - reflexivity.
Defined.

(** C10: when the action of the route [use] picked throws, [use] throws
    the same exception and returns nothing; the world is the one the
    action left, so no write of the state was issued, whether
    [persistState] is on or not. *)
Theorem C10_exception_propagates `{JsValue V} (pf : Platform)
    (this : ApiController V) (request : IncomingMessage) (w w' : World V)
    (route : ApiControllerRoute V) (err : string) :
  findRoute this request = Some route →
  routeAction route request w = Throw err w' →
  use pf this request w = Throw err w' ∧
  (∀ result w'', use pf this request w ≠ Normal result w'').
Proof.
  intros Hfind Haction.
  assert (Huse : use pf this request w = Throw err w').
  { rewrite (use_found _ _ _ _ _ Hfind). unfold runRoute. by rewrite Haction. }
  split; [done|]. intros result w''. by rewrite Huse.
Qed.

Lemma C10_witness :
  persistState Sample.controller = true ∧
  use Sample.platform Sample.controller (Sample.get "/fail") Sample.world0
  = Throw "Error: boom"
      {| state := Json.JObj [("count", Json.JNum 1)]; response := [];
         fileWrites := []; console := [] |} ∧
  (∀ result w'',
     use Sample.platform Sample.controller (Sample.get "/fail") Sample.world0
     ≠ Normal result w'').
Proof.
  split; [reflexivity|].
  apply (C10_exception_propagates Sample.platform Sample.controller
           (Sample.get "/fail") Sample.world0 _ Sample.failingRoute).
  - reflexivity.
  - reflexivity.
Defined.

(** ** Path variables *)

Section Variables.

Implicit Types (requestParts pathParts : list string).
Implicit Types (variables : gmap string string).

Lemma setProperty_lookup name v variables :
  name ≠ "__proto__" → setProperty name v variables !! name = Some v.
Proof.
  intros Hname. unfold setProperty. rewrite bool_decide_false by done.
  apply lookup_insert_eq.
Qed.

Lemma setProperty_lookup_ne name name' v variables :
  name ≠ name' → setProperty name v variables !! name' = variables !! name'.
Proof.
  intros Hne. unfold setProperty. case_bool_decide; [done|].
  by apply lookup_insert_ne.
Qed.

(** Nothing is ever bound to the name [__proto__]. *)
Lemma setProperty_proto name v variables :
  setProperty name v variables !! "__proto__" = variables !! "__proto__".
Proof.
  unfold setProperty. case_bool_decide as Hname; [done|].
  by apply lookup_insert_ne.
Qed.

Lemma bindVariable_colon requestParts name i variables :
  bindVariable requestParts (String ":" name) i variables
  = setProperty name (or_str (requestParts !! i) "") variables.
Proof.
  unfold bindVariable, startsWith. rewrite prefix_char.
  by rewrite bool_decide_true.
Qed.

(** A part binds no name but its own. *)
Lemma bindVariable_other requestParts part i variables name :
  part ≠ String ":" name →
  bindVariable requestParts part i variables !! name = variables !! name.
Proof.
  intros Hne. unfold bindVariable, startsWith.
  destruct part as [|c rest]; [done|].
  rewrite prefix_char. case_bool_decide as Hc; [|done].
  subst c. simpl. apply setProperty_lookup_ne. congruence.
Qed.

Lemma bindVariable_proto requestParts part i variables :
  bindVariable requestParts part i variables !! "__proto__"
  = variables !! "__proto__".
Proof.
  unfold bindVariable. destruct (startsWith ":" part); [|done].
  apply setProperty_proto.
Qed.

Lemma forEach_from_unbound requestParts pathParts i variables name :
  (∀ j, pathParts !! j ≠ Some (String ":" name)) →
  forEach_from (bindVariable requestParts) i pathParts variables !! name
  = variables !! name.
Proof.
  revert i variables.
  induction pathParts as [|part pathParts IH]; intros i variables Hno;
    simpl; [done|].
  rewrite IH by (intros j; apply (Hno (S j))).
  apply bindVariable_other. intros ->. by apply (Hno 0%nat).
Qed.

Lemma forEach_from_proto requestParts pathParts i variables :
  forEach_from (bindVariable requestParts) i pathParts variables !! "__proto__"
  = variables !! "__proto__".
Proof.
  revert i variables.
  induction pathParts as [|part pathParts IH]; intros i variables; simpl;
    [done|].
  rewrite IH. apply bindVariable_proto.
Qed.

Lemma forEach_from_bound requestParts pathParts i variables name j :
  name ≠ "__proto__" →
  pathParts !! j = Some (String ":" name) →
  (∀ k, j < k → pathParts !! k ≠ Some (String ":" name)) →
  forEach_from (bindVariable requestParts) i pathParts variables !! name
  = Some (or_str (requestParts !! (i + j)) "").
Proof.
  intros Hname. revert i variables j.
  induction pathParts as [|part pathParts IH]; intros i variables j Hj Hlast;
    [by rewrite lookup_nil in Hj|].
  destruct j as [|j]; simpl in *.
  - injection Hj as ->.
    rewrite forEach_from_unbound
      by (intros k; apply (Hlast (S k)); lia).
    rewrite bindVariable_colon, Nat.add_0_r. by apply setProperty_lookup.
  - rewrite (IH (S i) _ j Hj) by (intros k Hk; apply (Hlast (S k)); lia).
    by rewrite Nat.add_succ_r.
Qed.

Lemma requestWithoutQuery_plain u :
  includes "?" u = false → default "" (split "?" u !! 0%nat) = u.
Proof. intros Hu. by rewrite split_absent. Qed.

Lemma requestWithoutQuery_query u q :
  includes "?" u = false →
  default "" (split "?" (u +:+ "?" +:+ q) !! 0%nat) = u.
Proof. intros Hu. change ("?" +:+ q) with (String "?" q). by rewrite split_first. Qed.

End Variables.

(** C9: [getVariablesFromPath] drops the query string and binds the name
    after the colon to the request segment, as in the example of the
    specification, but not for each colon-prefixed segment: for the
    segment [:__proto__] the assignment [variables['__proto__'] = '42']
    makes no property and the result is the empty object, where the same
    request against [:id] binds [id] to [42]. *)
Theorem C9_proto_segment_binds_nothing :
  split "/" "/api/:__proto__" = [""; "api"; ":__proto__"] ∧
  split "/" "/api/42" = [""; "api"; "42"] ∧
  getVariablesFromPath "/api/:__proto__" "/api/42" = ∅ ∧
  getVariablesFromPath "/api/:id" "/api/42" = {[ "id" := "42" ]} ∧
  getVariablesFromPath "/api/second/:id" "/api/second/42?x=1" = {[ "id" := "42" ]}.
Proof. repeat split; by vm_compute. Qed.

(** ** The dispatcher and the static resolver *)

Section StaticResolver.

Context `{JsValue V}.
Implicit Types (this : MiniServer V) (request : IncomingMessage) (w : World V).

Lemma statusCode_from_app d ops ops' :
  statusCode_from d (ops ++ ops') = statusCode_from (statusCode_from d ops) ops'.
Proof.
  revert d. induction ops as [|[st h|chunk|] ops IH]; intros d; simpl; auto.
Qed.

(** The last [writeHead] decides the status. *)
Lemma statusCode_respond_head w st headers chunk :
  statusCode (response (respond [WriteHead st headers; Write chunk; End] w)) = st.
Proof. unfold statusCode. simpl. by rewrite statusCode_from_app. Qed.

Lemma findRoute_url_default (c : ApiController V) request :
  findRoute c {| url := Some (default "" (url request)); method := method request |}
  = findRoute c request.
Proof. done. Qed.

(** Without a controller, or without a matching route, the request goes
    to the static resolver. *)
Lemma serverMainHandler_unrouted pf this request w :
  match apiConteoller this with
  | None => True
  | Some c => findRoute c request = None
  end →
  serverMainHandler pf this request w
  = Normal tt (staticFileServer pf this request w).
Proof.
  unfold serverMainHandler, apiCallsServer.
  destruct (apiConteoller this) as [c|]; [|done].
  intros Hnone. unfold use. rewrite findRoute_url_default. by rewrite Hnone.
Qed.

Lemma staticFileServer_well_known pf this request w :
  includes ".well-known" (resolvedFilename pf this request) = true →
  staticFileServer pf this request w = respond [End] w.
Proof. unfold staticFileServer, resolvedFilename. by intros ->. Qed.

Lemma staticFileServer_missing pf this request w :
  includes ".well-known" (resolvedFilename pf this request) = false →
  isHotReloadRequest this request = false →
  existsSync pf (resolvedFilename pf this request) = false →
  staticFileServer pf this request w
  = if includes "api" (resolvedFilename pf this request)
    then respond [WriteHead 400 [("Content-Type", "text/plain")];
                  Write "API call not found"; End] w
    else sendFile pf this (joinPath pf (cwd pf) "/404.html")
           (logLine ("File not found: " +:+ resolvedFilename pf this request) w).
Proof.
  unfold staticFileServer, resolvedFilename, isHotReloadRequest.
  by intros -> -> ->.
Qed.

End StaticResolver.

(** C2, as stated, fails: a route registered for [/.well-known/acme]
    answers the probe itself, here with status 404 and the body [{}],
    although the resolved path contains [.well-known]. *)
Lemma C2_counterexample :
  includes ".well-known"
    (resolvedFilename Sample.platform
       (Sample.server (Some (addRoute Sample.controller Sample.probeRoute)) false)
       (Sample.get "/.well-known/acme")) = true ∧
  match serverMainHandler Sample.platform
          (Sample.server (Some (addRoute Sample.controller Sample.probeRoute)) false)
          (Sample.get "/.well-known/acme") Sample.world0 with
  | Normal _ w' =>
      statusCode (response w') = 404 ∧ body (response w') = "{}"
  | Throw _ _ => False
  end.
Proof. split; by vm_compute. Qed.

(** C2, amended: routing comes first.  A request that the router does not
    handle (there is no controller, or no route matches) and whose
    resolved path contains [.well-known] gets its response ended at once:
    on a response not yet written to, the status is 200 and the body is
    empty; the state, the file writes and the console are untouched, and
    nothing is asked of the file system. *)
Theorem C2_well_known_after_routing `{JsValue V} (pf : Platform)
    (this : MiniServer V) (request : IncomingMessage) (w : World V) :
  includes ".well-known" (resolvedFilename pf this request) = true →
  match apiConteoller this with
  | None => True
  | Some c => findRoute c request = None
  end →
  response w = [] →
  serverMainHandler pf this request w
  = Normal tt {| state := state w; response := [End];
                 fileWrites := fileWrites w; console := console w |} ∧
  statusCode [End] = 200 ∧ body [End] = "" ∧ ended [End] = true.
Proof.
  intros Hprobe Hunrouted Hfresh. split; [|done].
  rewrite serverMainHandler_unrouted by done.
  rewrite staticFileServer_well_known by done.
  unfold respond. by rewrite Hfresh.
Qed.

Lemma C2_witness :
  serverMainHandler Sample.barePlatform
    (Sample.server (Some Sample.controller) true)
    (Sample.get "/.well-known/acme") Sample.world0
  = Normal tt {| state := Sample.state0; response := [End];
                 fileWrites := []; console := [] |} ∧
  statusCode [End] = 200 ∧ body [End] = "" ∧ ended [End] = true.
Proof.
  apply (C2_well_known_after_routing Sample.barePlatform
           (Sample.server (Some Sample.controller) true)
           (Sample.get "/.well-known/acme") Sample.world0).
  - reflexivity.
  - reflexivity.
  - reflexivity.
Defined.

(** C6, as stated, fails, on four requests for paths that are not on
    disk.  A path that contains both [.well-known] and [api] is answered
    by the probe case: no 400, an empty response.  With hot reload on, the
    worker path gets the worker script.  A path without [api] gets status
    500 when [404.html] cannot be read; and with hot reload on, what is
    sent for it is [404.html] with the reload script put in. *)
Lemma C6_counterexample :
  (existsSync Sample.platform
     (resolvedFilename Sample.platform (Sample.server None false)
        (Sample.get "/.well-known/api")) = false ∧
   includes "api"
     (resolvedFilename Sample.platform (Sample.server None false)
        (Sample.get "/.well-known/api")) = true ∧
   response (staticFileServer Sample.platform (Sample.server None false)
               (Sample.get "/.well-known/api") Sample.world0) = [End]) ∧
  (existsSync Sample.platform
     (resolvedFilename Sample.platform (Sample.server None true)
        (Sample.get "/hot-reload-k3x9f.js")) = false ∧
   includes "api"
     (resolvedFilename Sample.platform (Sample.server None true)
        (Sample.get "/hot-reload-k3x9f.js")) = false ∧
   body (response (staticFileServer Sample.platform (Sample.server None true)
                     (Sample.get "/hot-reload-k3x9f.js") Sample.world0))
   = htmlHotReloadWorker) ∧
  (existsSync Sample.barePlatform
     (resolvedFilename Sample.barePlatform (Sample.server None false)
        (Sample.get "/nothing.html")) = false ∧
   includes "api"
     (resolvedFilename Sample.barePlatform (Sample.server None false)
        (Sample.get "/nothing.html")) = false ∧
   statusCode
     (response (staticFileServer Sample.barePlatform (Sample.server None false)
                  (Sample.get "/nothing.html") Sample.world0)) = 500) ∧
  (existsSync Sample.platform
     (resolvedFilename Sample.platform (Sample.server None true)
        (Sample.get "/nothing.html")) = false ∧
   includes "api"
     (resolvedFilename Sample.platform (Sample.server None true)
        (Sample.get "/nothing.html")) = false ∧
   readFileSync Sample.platform "/srv/404.html"
   = inl "<html><head></head><body>Not found</body></html>" ∧
   body (response (staticFileServer Sample.platform (Sample.server None true)
                     (Sample.get "/nothing.html") Sample.world0))
   = "<html><head>" +:+ htmlHotReloadScript (Sample.server None true)
     +:+ "</head><body>Not found</body></html>").
Proof. repeat split; by vm_compute. Qed.

(** C6, amended: the two answers for a missing path come after the probe
    case and the hot-reload worker case.  For a request that is neither,
    and whose resolved path does not exist: if that path contains [api],
    the answer is 400, [text/plain], [API call not found]; otherwise the
    miss is logged, the file name becomes [404.html] in the working
    directory and, when that file can be read, its content is sent with
    status 200, with the content type of its extension and, when hot
    reload is on and the name ends in [.html], with the reload script put
    before the first [</head>]. *)
Theorem C6_missing_path `{JsValue V} (pf : Platform) (this : MiniServer V)
    (request : IncomingMessage) (w : World V) :
  includes ".well-known" (resolvedFilename pf this request) = false →
  isHotReloadRequest this request = false →
  existsSync pf (resolvedFilename pf this request) = false →
  (includes "api" (resolvedFilename pf this request) = true →
   staticFileServer pf this request w
   = respond [WriteHead 400 [("Content-Type", "text/plain")];
              Write "API call not found"; End] w ∧
   statusCode (response (staticFileServer pf this request w)) = 400) ∧
  (includes "api" (resolvedFilename pf this request) = false →
   ∀ content,
     readFileSync pf (joinPath pf (cwd pf) "/404.html") = inl content →
     staticFileServer pf this request w
     = respond
         [WriteHead 200
            match contentTypes !! extname pf (joinPath pf (cwd pf) "/404.html") with
            | Some contentType => [("Content-Type", contentType)]
            | None => []
            end;
          Write
            (if endsWith ".html" (joinPath pf (cwd pf) "/404.html") &&
                devHotReload this
             then replace "</head>" (htmlHotReloadScript this +:+ "</head>") content
             else content);
          End]
         (logLine ("File not found: " +:+ resolvedFilename pf this request) w) ∧
     statusCode (response (staticFileServer pf this request w)) = 200).
Proof.
  intros Hprobe Hhot Hmissing.
  pose proof (staticFileServer_missing pf this request w Hprobe Hhot Hmissing)
    as Hstatic.
  split.
  - intros Hapi. rewrite Hapi in Hstatic. rewrite Hstatic.
    split; [done|]. apply statusCode_respond_head.
  - intros Hapi content Hread. rewrite Hapi in Hstatic. rewrite Hstatic.
    unfold sendFile. rewrite Hread.
    split; [done|]. apply statusCode_respond_head.
Qed.

Lemma C6_witness :
  (staticFileServer Sample.platform (Sample.server None true)
     (Sample.get "/api/missing") Sample.world0
   = respond [WriteHead 400 [("Content-Type", "text/plain")];
              Write "API call not found"; End] Sample.world0 ∧
   statusCode (response (staticFileServer Sample.platform (Sample.server None true)
                           (Sample.get "/api/missing") Sample.world0)) = 400) ∧
  (staticFileServer Sample.platform (Sample.server None false)
     (Sample.get "/nothing.html") Sample.world0
   = respond [WriteHead 200 [("Content-Type", "text/html")];
              Write "<html><head></head><body>Not found</body></html>"; End]
       (logLine "File not found: /srv/public/nothing.html" Sample.world0) ∧
   statusCode (response (staticFileServer Sample.platform (Sample.server None false)
                           (Sample.get "/nothing.html") Sample.world0)) = 200).
Proof.
  split.
  - apply (C6_missing_path Sample.platform (Sample.server None true)
             (Sample.get "/api/missing") Sample.world0);
      reflexivity.
  - apply (C6_missing_path Sample.platform (Sample.server None false)
             (Sample.get "/nothing.html") Sample.world0
             eq_refl eq_refl eq_refl);
      reflexivity.
Defined.

(** * Further properties *)

(** ** More on strings *)

Section MoreStringFacts.

(** Splitting at a separator splits the parts. *)
Lemma split_app_sep sep s t :
  split sep (s +:+ String sep t) = split sep s ++ split sep t.
Proof.
  induction s as [|c s IH]; simpl.
  - by rewrite Ascii.eqb_refl.
  - destruct (Ascii.eqb c sep); [by rewrite IH|].
    rewrite IH. destruct (split sep s) eqn:E; [|done].
    by apply split_nonempty in E.
Qed.

Lemma split_length_pos sep s : 0 < length (split sep s).
Proof.
  destruct (split sep s) eqn:E; [by apply split_nonempty in E|]. simpl. lia.
Qed.

Lemma joinWith_cons sep x l :
  l ≠ [] → Json.joinWith sep (x :: l) = x +:+ sep +:+ Json.joinWith sep l.
Proof. by destruct l. Qed.

Lemma string_app_cons x (a b : string) : String x a +:+ b = String x (a +:+ b).
Proof. done. Qed.

Lemma string_app_assoc (a b c : string) : (a +:+ b) +:+ c = a +:+ (b +:+ c).
Proof.
  induction a as [|x a IH]; [done|]. rewrite !string_app_cons. by f_equal.
Qed.

Lemma string_app_nil_r (a : string) : a +:+ "" = a.
Proof.
  induction a as [|x a IH]; [done|]. rewrite string_app_cons. by f_equal.
Qed.

(** [s.split(sep).join(sep)] is [s]. *)
Lemma join_split sep s : Json.joinWith (String sep "") (split sep s) = s.
Proof.
  induction s as [|c s IH]; [done|]. simpl.
  destruct (Ascii.eqb_spec c sep) as [->|Hne].
  - rewrite joinWith_cons by apply split_nonempty. simpl. by rewrite IH.
  - destruct (split sep s) as [|h t] eqn:E; [by apply split_nonempty in E|].
    destruct t as [|h' t]; simpl in *; by rewrite <- IH.
Qed.

Lemma split_inj sep s s' : split sep s = split sep s' → s = s'.
Proof.
  intros Heq. rewrite <- (join_split sep s), <- (join_split sep s').
  by rewrite Heq.
Qed.

Lemma includes_char c a s :
  includes (String c "") (String a s)
  = bool_decide (c = a) || includes (String c "") s.
Proof. cbn [includes]. by rewrite prefix_char. Qed.

(** A segment holds only characters of the string it was cut from. *)
Lemma split_segment_chars sep c s x :
  x ∈ split sep s →
  includes (String c "") x = true → includes (String c "") s = true.
Proof.
  revert x. induction s as [|a s IH]; intros x Hx Hc.
  - apply list_elem_of_singleton in Hx as ->. done.
  - rewrite includes_char. apply orb_true_iff. simpl in Hx.
    destruct (Ascii.eqb a sep).
    + apply elem_of_cons in Hx as [->|Hx]; [done|]. right. by apply (IH x).
    + destruct (split sep s) as [|h t] eqn:E; [by apply split_nonempty in E|].
      apply elem_of_cons in Hx as [->|Hx].
      * rewrite includes_char in Hc. apply orb_true_iff in Hc as [Hc|Hc];
          [by left|]. right. apply (IH h); [by left | done].
      * right. apply (IH x); [by right | done].
Qed.

(** No segment holds the separator. *)
Lemma split_segment_no_sep sep s x :
  x ∈ split sep s → includes (String sep "") x = false.
Proof.
  revert x. induction s as [|a s IH]; intros x Hx.
  - apply list_elem_of_singleton in Hx as ->. done.
  - simpl in Hx. destruct (Ascii.eqb_spec a sep) as [->|Hne].
    + apply elem_of_cons in Hx as [->|Hx]; [done | by apply IH].
    + destruct (split sep s) as [|h t] eqn:E; [by apply split_nonempty in E|].
      apply elem_of_cons in Hx as [->|Hx].
      * rewrite includes_char. rewrite bool_decide_false by congruence.
        apply IH. by left.
      * apply IH. by right.
Qed.

Lemma split_cons sep c s :
  split sep (String c s)
  = if Ascii.eqb c sep then "" :: split sep s
    else match split sep s with
         | h :: t => String c h :: t
         | [] => [String c ""]
         end.
Proof. done. Qed.

(** Text without the separator, put at the end, goes to the last segment. *)
Lemma split_app_plain sep s t front lst :
  includes (String sep "") t = false →
  split sep s = front ++ [lst] →
  split sep (s +:+ t) = front ++ [lst +:+ t].
Proof.
  intros Ht. revert front lst.
  induction s as [|c s IH]; intros front lst Hs.
  - simpl in Hs. destruct front as [|x [|y front]]; [|done..].
    injection Hs as <-. simpl. by rewrite split_absent.
  - rewrite string_app_cons, split_cons. rewrite split_cons in Hs.
    destruct (split sep s) as [|h tl] eqn:E; [by apply split_nonempty in E|].
    destruct (Ascii.eqb c sep).
    + destruct front as [|x front]; [by destruct tl|].
      injection Hs as <- Hs. by rewrite (IH front lst Hs).
    + destruct front as [|x front].
      * injection Hs as <- ->. by rewrite (IH [] h eq_refl).
      * injection Hs as <- ->. by rewrite (IH (h :: front) lst eq_refl).
Qed.

Lemma split_last sep s : ∃ front lst, split sep s = front ++ [lst].
Proof.
  destruct (split sep s) as [|h tl] eqn:E using rev_ind;
    [by apply split_nonempty in E | by eauto].
Qed.

End MoreStringFacts.

(** ** More on the route matcher *)

(** X1: segments added to a path that matches break the match.  When a
    route matches the request path [u], it matches no path that goes on
    after [u] with a slash, the bare trailing slash included, whatever
    the method. *)
Theorem X1_longer_path_never_matches (route : RoutePattern) (u : string)
    (qm : option string) :
  isRouteMatch route {| mr_url := u; mr_method := qm |} = true →
  ∀ t qm',
    isRouteMatch route {| mr_url := u +:+ "/" +:+ t; mr_method := qm' |} = false.
Proof.
  intros Hmatch t qm'. apply isRouteMatch_spec in Hmatch as (Hlen & _ & _).
  apply isRouteMatch_counts_differ. simpl in *.
  change ("/" +:+ t) with (String "/" t).
  rewrite split_app_sep, length_app, Hlen.
  pose proof (split_length_pos "/" t). lia.
Qed.

Lemma X1_witness :
  isRouteMatch {| pat_url := "/api/second/:id"; pat_method := None |}
               {| mr_url := "/api/second/42" +:+ "/" +:+ "";
                  mr_method := Some "GET" |}
  = false.
Proof.
  apply (X1_longer_path_never_matches
           {| pat_url := "/api/second/:id"; pat_method := None |}
           "/api/second/42" (Some "GET")).
  reflexivity.
Defined.

(** X2: a pattern without a colon-prefixed segment matches its own url and
    no other.  When no method stands in the way, the request matches
    exactly when its url is the url of the route, character for
    character. *)
Theorem X2_literal_pattern_exact (route : RoutePattern) (request : MatchRequest) :
  Forall (λ part, startsWith ":" part = false) (split "/" (pat_url route)) →
  methodMismatch (pat_method route) (mr_method request) = false →
  isRouteMatch route request = true ↔ mr_url request = pat_url route.
Proof.
  intros Hlit Hmeth. rewrite isRouteMatch_spec. split.
  - intros (Hlen & _ & Hseg). apply (split_inj "/"). apply list_eq. intros i.
    destruct (split "/" (pat_url route) !! i) as [part|] eqn:Hi.
    + apply Hseg; [done|]. rewrite Forall_forall in Hlit. apply Hlit.
      apply list_elem_of_lookup. by exists i.
    + apply lookup_ge_None in Hi. apply lookup_ge_None. lia.
  - intros ->. by repeat split.
Qed.

Lemma X2_witness :
  isRouteMatch {| pat_url := "/api/first"; pat_method := Some "GET" |}
               {| mr_url := "/api/first"; mr_method := Some "get" |} = true ∧
  isRouteMatch {| pat_url := "/api/first"; pat_method := Some "GET" |}
               {| mr_url := "/api/First"; mr_method := Some "get" |} ≠ true.
Proof.
  split.
  - apply (X2_literal_pattern_exact
             {| pat_url := "/api/first"; pat_method := Some "GET" |}
             {| mr_url := "/api/first"; mr_method := Some "get" |});
      [repeat constructor | reflexivity | reflexivity].
  - intros Hmatch.
    apply (X2_literal_pattern_exact
             {| pat_url := "/api/first"; pat_method := Some "GET" |}
             {| mr_url := "/api/First"; mr_method := Some "get" |}) in Hmatch;
      [discriminate Hmatch | repeat constructor | reflexivity].
Defined.

(** X3: a route whose url has no slash, such as the canned route [json2]
    of [controller.js], matches no request whose url starts with a slash:
    the pattern is one segment and the request at least two. *)
Theorem X3_slashless_route_unreachable (p : string) (rm : option string)
    (u : string) (qm : option string) :
  includes "/" p = false →
  isRouteMatch {| pat_url := p; pat_method := rm |}
               {| mr_url := "/" +:+ u; mr_method := qm |} = false.
Proof.
  intros Hp. apply isRouteMatch_counts_differ. cbn [pat_url mr_url].
  rewrite (split_absent "/" p Hp).
  change (split "/" ("/" +:+ u)) with ("" :: split "/" u).
  pose proof (split_length_pos "/" u) as Hpos.
  destruct (split "/" u); simpl in *; lia.
Qed.

Lemma X3_witness :
  isRouteMatch {| pat_url := "json2"; pat_method := Some "GET" |}
               {| mr_url := "/" +:+ "json2"; mr_method := Some "GET" |} = false.
Proof.
  apply (X3_slashless_route_unreachable "json2" (Some "GET") "json2" (Some "GET")).
  reflexivity.
Defined.

(** X4: a query string is let through by a pattern that ends in a
    variable.  When the last segment of the pattern starts with a colon
    and the query holds no slash, the request with the query appended
    matches exactly when the request without it does. *)
Theorem X4_query_after_variable (route : RoutePattern) (front : list string)
    (lastPart u q : string) (qm : option string) :
  split "/" (pat_url route) = front ++ [lastPart] →
  startsWith ":" lastPart = true →
  includes "/" q = false →
  isRouteMatch route {| mr_url := u +:+ "?" +:+ q; mr_method := qm |}
  = isRouteMatch route {| mr_url := u; mr_method := qm |}.
Proof.
  intros Hpat Hvar Hq.
  destruct (split_last "/" u) as (fu & lu & Hu).
  assert (Huq : split "/" (u +:+ "?" +:+ q) = fu ++ [lu +:+ "?" +:+ q]).
  { apply split_app_plain; [|done].
    change ("?" +:+ q) with (String "?" q). rewrite includes_char.
    by rewrite bool_decide_false. }
  apply eq_true_iff_eq. rewrite !isRouteMatch_spec. simpl.
  rewrite Huq, Hu, Hpat, !length_app. simpl.
  assert (Hseg : ∀ (x y : string) i part,
            length front = length fu →
            (front ++ [lastPart]) !! i = Some part →
            startsWith ":" part = false →
            (fu ++ [x]) !! i = Some part → (fu ++ [y]) !! i = Some part).
  { intros x y i part Hlen Hi Hlit Hx.
    destruct (decide (i < length front)) as [Hlt|Hge].
    - rewrite lookup_app_l in Hx by lia. by rewrite lookup_app_l by lia.
    - rewrite lookup_app_r in Hi by lia.
      destruct (i - length front) as [|k] eqn:Hk; simpl in Hi; [|done].
      injection Hi as <-. congruence. }
  split; intros (Hlen & Hmeth & H); (split; [done|]); (split; [done|]);
    intros i part Hi Hlit; eapply Hseg; eauto; lia.
Qed.

Lemma X4_witness :
  isRouteMatch {| pat_url := "/api/second/:id"; pat_method := None |}
               {| mr_url := "/api/second/42" +:+ "?" +:+ "x=1";
                  mr_method := Some "GET" |}
  = isRouteMatch {| pat_url := "/api/second/:id"; pat_method := None |}
                 {| mr_url := "/api/second/42"; mr_method := Some "GET" |}.
Proof.
  apply (X4_query_after_variable
           {| pat_url := "/api/second/:id"; pat_method := None |}
           [""; "api"; "second"] ":id" "/api/second/42" "x=1" (Some "GET"));
    reflexivity.
Defined.

(** ** More on path variables *)

Section MoreVariables.

Implicit Types (requestParts pathParts : list string).
Implicit Types (variables : gmap string string).

Lemma last_occurrence (x : string) (l : list string) :
  x ∈ l → ∃ i, l !! i = Some x ∧ ∀ j, i < j → l !! j ≠ Some x.
Proof.
  induction l as [|a l IH]; intros Hin; [by apply elem_of_nil in Hin|].
  destruct (decide (x ∈ l)) as [Hl|Hl].
  - destruct (IH Hl) as (i & Hi & Hlast). exists (S i). split; [done|].
    intros [|j] Hj; [lia|]. simpl. apply Hlast. lia.
  - apply elem_of_cons in Hin as [->|Hin]; [|done].
    exists 0%nat. split; [done|]. intros [|j] Hj; [lia|]. simpl.
    intros Hsome. apply Hl. apply list_elem_of_lookup. by exists j.
Qed.

(** What [requestParts[i] || ''] can be. *)
Lemma or_str_lookup requestParts i :
  or_str (requestParts !! i) "" = "" ∨ or_str (requestParts !! i) "" ∈ requestParts.
Proof.
  destruct (requestParts !! i) as [[|c s]|] eqn:Hi; simpl; [by left| |by left].
  right. apply list_elem_of_lookup. by exists i.
Qed.

(** Every value the loop binds is [''] or a request segment. *)
Lemma forEach_from_values requestParts pathParts i variables name v :
  forEach_from (bindVariable requestParts) i pathParts variables !! name = Some v →
  variables !! name = Some v ∨ v = "" ∨ v ∈ requestParts.
Proof.
  revert i variables.
  induction pathParts as [|part pathParts IH]; intros i variables Hv;
    simpl in Hv; [by left|].
  apply IH in Hv as [Hv|Hv]; [|by right].
  unfold bindVariable, setProperty in Hv.
  destruct (startsWith ":" part); [|by left].
  case_bool_decide; [by left|].
  destruct (decide (substring 1 part = name)) as [<-|Hne].
  - rewrite lookup_insert_eq in Hv. injection Hv as <-. right.
    apply or_str_lookup.
  - rewrite lookup_insert_ne in Hv by done. by left.
Qed.

Lemma requestWithoutQuery_no_query url :
  includes "?" (default "" (split "?" url !! 0%nat)) = false.
Proof.
  destruct (split "?" url) as [|h t] eqn:E; [done|]. simpl.
  apply (split_segment_no_sep "?" url). rewrite E. by left.
Qed.

End MoreVariables.

(** X5: the names [getVariablesFromPath] binds are those of the pattern,
    whatever the request: a name is bound exactly when the pattern has the
    segment [:name] and the name is not [__proto__], for which the
    assignment makes no property. *)
Theorem X5_variables_domain (path url name : string) :
  is_Some (getVariablesFromPath path url !! name)
  ↔ (":" +:+ name) ∈ split "/" path ∧ name ≠ "__proto__".
Proof.
  unfold getVariablesFromPath, forEach. split.
  - intros Hsome. split.
    + destruct (decide (String ":" name ∈ split "/" path)) as [Hin|Hnotin];
        [done|].
      rewrite forEach_from_unbound in Hsome.
      * rewrite lookup_empty in Hsome. by destruct Hsome.
      * intros j Hj. apply Hnotin. apply list_elem_of_lookup. by exists j.
    + intros ->. rewrite forEach_from_proto, lookup_empty in Hsome.
      by destruct Hsome.
  - intros [Hin Hname]. apply last_occurrence in Hin as (i & Hi & Hlast).
    rewrite (forEach_from_bound _ _ _ _ name i Hname Hi Hlast). by eexists.
Qed.

(** X6: a value bound by [getVariablesFromPath] holds neither a slash nor
    a question mark: it is the empty string or one segment of the request
    path cut at its first question mark. *)
Theorem X6_variable_values_plain (path url name v : string) :
  getVariablesFromPath path url !! name = Some v →
  includes "/" v = false ∧ includes "?" v = false.
Proof.
  unfold getVariablesFromPath, forEach. intros Hv.
  apply forEach_from_values in Hv as [Hv|[->|Hv]];
    [by rewrite lookup_empty in Hv | done |].
  split; [by apply (split_segment_no_sep "/" _ v Hv)|].
  destruct (includes "?" v) eqn:Hq; [|done].
  apply (split_segment_chars "/" "?" _ v Hv) in Hq.
  by rewrite requestWithoutQuery_no_query in Hq.
Qed.

Lemma X6_witness :
  includes "/" "42" = false ∧ includes "?" "42" = false.
Proof.
  apply (X6_variable_values_plain "/api/second/:id" "/api/second/42?x=/1" "id" "42").
  by vm_compute.
Defined.



(** X22: what [getVariablesFromPath] binds, for every name but
    [__proto__].  It reads the request path up to its first question
    mark; the name of a colon-prefixed pattern segment is bound to the
    request segment at the same position, and to the empty string when
    there is none; a name that occurs in several pattern segments keeps
    the binding of the last one. *)
Theorem X22_variables_from_path :
  (∀ path u q,
     includes "?" u = false →
     getVariablesFromPath path (u +:+ "?" +:+ q) = getVariablesFromPath path u) ∧
  (∀ path u i name,
     name ≠ "__proto__" →
     includes "?" u = false →
     split "/" path !! i = Some (":" +:+ name) →
     (∀ j, i < j → split "/" path !! j ≠ Some (":" +:+ name)) →
     getVariablesFromPath path u !! name
     = Some (match split "/" u !! i with
             | Some segment => segment
             | None => ""
             end)).
Proof.
  split.
  - intros path u q Hu. unfold getVariablesFromPath.
    by rewrite requestWithoutQuery_query, requestWithoutQuery_plain.
  - intros path u i name Hname Hu Hi Hlast.
    unfold getVariablesFromPath, forEach.
    rewrite requestWithoutQuery_plain by done.
    rewrite (forEach_from_bound _ _ _ _ name i Hname Hi Hlast). simpl.
    by destruct (split "/" u !! i) as [[|c s]|].
Qed.

Lemma X22_witness :
  getVariablesFromPath "/api/second/:id" ("/api/second/42" +:+ "?" +:+ "x=1")
  = getVariablesFromPath "/api/second/:id" "/api/second/42" ∧
  getVariablesFromPath "/api/second/:id" "/api/second/42" !! "id" = Some "42" ∧
  getVariablesFromPath "/api/:a/:b" "/api/7" !! "b" = Some "" ∧
  getVariablesFromPath "/:a/:a" "/1/2" !! "a" = Some "2".
Proof.
  destruct X22_variables_from_path as (Hquery & Hbind).
  split; [|split; [|split]].
  - apply Hquery. reflexivity.
  - apply (Hbind "/api/second/:id" "/api/second/42" 3%nat "id");
      [discriminate | reflexivity | reflexivity |].
    intros [|[|[|[|j]]]] Hj; first [lia | by vm_compute].
  - apply (Hbind "/api/:a/:b" "/api/7" 3%nat "b");
      [discriminate | reflexivity | reflexivity |].
    intros [|[|[|[|j]]]] Hj; first [lia | by vm_compute].
  - apply (Hbind "/:a/:a" "/1/2" 2%nat "a");
      [discriminate | reflexivity | reflexivity |].
    intros [|[|[|j]]] Hj; first [lia | by vm_compute].
Defined.

(** ** More on the router *)

Section MoreRouter.

Context `{JsValue V}.
Implicit Types (this : ApiController V) (route r later : ApiControllerRoute V).
Implicit Types (request : IncomingMessage) (w : World V).

Lemma find_snoc {A} (f : A → bool) (l : list A) (x : A) :
  List.find f (l ++ [x])
  = match List.find f l with
    | Some y => Some y
    | None => if f x then Some x else None
    end.
Proof. induction l as [|y l IH]; simpl; [done|]. by destruct (f y). Qed.

Lemma find_map {A B} (f : B → bool) (g : A → B) (l : list A) :
  List.find f (map g l) = g <$> List.find (λ x, f (g x)) l.
Proof. induction l as [|y l IH]; simpl; [done|]. by destruct (f (g y)). Qed.

Lemma foldl_addRoute_routes this (rs : list (ApiControllerRoute V)) :
  routes (foldl addRoute this rs) = routes this ++ rs.
Proof.
  revert this. induction rs as [|r rs IH]; intros this; simpl.
  - by rewrite app_nil_r.
  - rewrite IH. simpl. by rewrite <- app_assoc.
Qed.

Lemma foldl_addRoute_config this (rs : list (ApiControllerRoute V)) :
  persistState (foldl addRoute this rs) = persistState this ∧
  stateSaveFileName (foldl addRoute this rs) = stateSaveFileName this.
Proof.
  revert this. induction rs as [|r rs IH]; intros this; simpl; [done|].
  by destruct (IH (addRoute this r)) as [-> ->].
Qed.

Lemma body_app (ops ops' : list ResOp) : body (ops ++ ops') = body ops +:+ body ops'.
Proof.
  induction ops as [|[st h|chunk|] ops IH]; simpl; try done.
  rewrite IH. by rewrite string_app_assoc.
Qed.

Lemma legacy_match (r : Legacy.ApiControllerRoute V) request :
  routeMatches (migrateRoute r) request
  = Legacy.isRouteMatch (Legacy.route r) (default "" (url request)).
Proof. done. Qed.

End MoreRouter.

(** X8: what [addRoute] changes for a request.  After [addRoute], a
    request that an earlier route matched is handled as before; a request
    that no earlier route matched and the new route matches is answered
    by the action of the new route (followed by the save of the state, or
    the exception it threw); a request that neither matches is declined
    as before. *)
Theorem X8_addRoute_then_use `{JsValue V} (pf : Platform)
    (this : ApiController V) (later : ApiControllerRoute V)
    (request : IncomingMessage) (w : World V) :
  use pf (addRoute this later) request w
  = match findRoute this request with
    | Some _ => use pf this request w
    | None =>
        if routeMatches later request
        then match routeAction later request w with
             | Throw err w' => Throw err w'
             | Normal _ w' =>
                 Normal {| handled := true |}
                   (if persistState this
                    then writeFile pf (stateSaveFileName this)
                           (stringifyPretty (state w')) w'
                    else w')
             end
        else Normal {| handled := false |} w
    end.
Proof.
  unfold use, findRoute, addRoute. simpl. rewrite find_snoc.
  destruct (List.find _ (routes this)); [done|].
  by destruct (routeMatches later request).
Qed.

(** X9: the route table is the constructor's routes followed by the routes
    of the [addRoute] calls, in call order, and the calls leave the
    persistence settings of the constructor as they are. *)
Theorem X9_route_table_order `{JsValue V} (args : ControllerArgs V)
    (rs : list (ApiControllerRoute V)) :
  routes (foldl addRoute (newApiController args).1 rs)
  = default [] (arg_routes args) ++ rs ∧
  persistState (foldl addRoute (newApiController args).1 rs)
  = default false (arg_persistState args) ∧
  stateSaveFileName (foldl addRoute (newApiController args).1 rs)
  = or_str (arg_stateSaveFile args) "./server.state.temp".
Proof.
  rewrite foldl_addRoute_routes.
  destruct (foldl_addRoute_config (newApiController args).1 rs) as [-> ->].
  done.
Qed.

(** X10: a route built by [createRoute] with JSON data, once picked by
    [use] for a request whose response nothing has written to.  With a
    status that [writeHead] takes (100 to 999, or none or 0, which stand
    for 200) it answers and does not throw: the status is that one, the
    body is the JSON text of the data, or of [{}] when the data is absent
    or falsy, the state is left as it was, and the write issued when
    [persistState] is on saves the state the request found.  With any
    other status [use] throws the RangeError of [writeHead]: nothing is
    sent and nothing is saved. *)
Theorem X10_canned_route `{JsValue V} (pf : Platform) (this : ApiController V)
    (args : CreateRouteArgs V) (request : IncomingMessage) (w : World V) :
  findRoute this request = Some (createRoute args) →
  response w = [] →
  (validStatus (or_status (cr_status args) 200) = true →
   use pf this request w
   = Normal {| handled := true |}
       {| state := state w;
          response :=
            [WriteHead (or_status (cr_status args) 200)
               [("Content-Type", "application/json")];
             Write (stringify match cr_data args with
                              | Some v => if truthy v then v else emptyObject
                              | None => emptyObject
                              end);
             End];
          fileWrites :=
            fileWrites w ++
            (if persistState this
             then [{| fw_file := stateSaveFileName this;
                      fw_data := stringifyPretty (state w);
                      fw_outcome := writeFileOutcome pf (stateSaveFileName this)
                                      (stringifyPretty (state w)) |}]
             else []);
          console := console w |}) ∧
  (validStatus (or_status (cr_status args) 200) = false →
   ∃ err, use pf this request w = Throw err w).
Proof.
  intros Hfind Hfresh. rewrite (use_found _ _ _ _ _ Hfind).
  unfold runRoute. cbn [routeAction createRoute]. split; intros ->.
  - unfold respond, writeFile. rewrite Hfresh. cbn [app state response fileWrites console].
    destruct (persistState this); [done|]. by rewrite app_nil_r.
  - by eexists.
Qed.

Lemma X10_witness :
  use Sample.readOnlyPlatform Sample.controller (Sample.get "/api/first")
    Sample.world0
  = Normal {| handled := true |}
      {| state := Sample.state0;
         response := [WriteHead 200 [("Content-Type", "application/json")];
                      Write (dq +:+ "variable" +:+ dq); End];
         fileWrites :=
           [{| fw_file := "./server.state.temp";
               fw_data := lines ["{"; "  " +:+ dq +:+ "count" +:+ dq +:+ ": 0"; "}"];
               fw_outcome :=
                 Some "Error: EACCES: permission denied, open './server.state.temp'" |}];
         console := [] |} ∧
  (∃ err,
     use Sample.platform
       {| persistState := true; stateSaveFileName := "./server.state.temp";
          routes := [createRoute {| cr_url := "/teapot"; cr_method := None;
                                    cr_data := None; cr_status := Some 99 |}] |}
       (Sample.get "/teapot") Sample.world0
     = Throw err Sample.world0).
Proof.
  split.
  - etransitivity.
    + apply (X10_canned_route Sample.readOnlyPlatform Sample.controller
               {| cr_url := "/api/:id"; cr_method := None;
                  cr_data := Some (Json.JStr "variable"); cr_status := None |}
               (Sample.get "/api/first") Sample.world0);
        reflexivity.
    + reflexivity.
  - apply (X10_canned_route Sample.platform
             {| persistState := true; stateSaveFileName := "./server.state.temp";
                routes := [createRoute {| cr_url := "/teapot"; cr_method := None;
                                          cr_data := None; cr_status := Some 99 |}] |}
             {| cr_url := "/teapot"; cr_method := None;
                cr_data := None; cr_status := Some 99 |}
             (Sample.get "/teapot") Sample.world0);
      reflexivity.
Defined.

(** X11: a legacy controller, moved to the current router by renaming
    [route] to [url] and giving no method, answers every request as the
    legacy router did: same route picked, same action run, same write of
    the state to the same file.  Moving the controller over after a legacy
    [addRoute] is the same as [addRoute] after moving it over. *)
Theorem X11_legacy_router_agrees `{JsValue V} (pf : Platform)
    (c : Legacy.ApiController V) (r : Legacy.ApiControllerRoute V)
    (request : IncomingMessage) (w : World V) :
  use pf (migrate c) request w = Legacy.use pf c request w ∧
  migrate (Legacy.addRoute c r) = addRoute (migrate c) (migrateRoute r).
Proof.
  split; [|unfold migrate, addRoute; simpl; by rewrite map_app].
  unfold use, Legacy.use, findRoute, migrate. cbn [routes].
  rewrite find_map.
  change (λ x : Legacy.ApiControllerRoute V, routeMatches (migrateRoute x) request)
    with (λ r : Legacy.ApiControllerRoute V,
            Legacy.isRouteMatch (Legacy.route r) (default "" (url request))).
  by destruct (List.find _ (Legacy.routes c)).
Qed.

(** X21: registering a route again is without effect.  A route added
    after a route of the table that has the same url and the same method
    is never run: every request is handled as before the [addRoute]. *)
Theorem X21_duplicate_route_is_dead `{JsValue V} (pf : Platform)
    (this : ApiController V) (r later : ApiControllerRoute V)
    (request : IncomingMessage) (w : World V) :
  r ∈ routes this →
  route_url later = route_url r →
  route_method later = route_method r →
  use pf (addRoute this later) request w = use pf this request w.
Proof.
  intros Hin Hurl Hmethod.
  unfold use, findRoute, addRoute. cbn [routes]. rewrite find_snoc.
  destruct (List.find _ (routes this)) eqn:Hfind; [done|].
  assert (Hr : routeMatches r request = false).
  { apply list_elem_of_In in Hin.
    exact (find_none _ _ Hfind r Hin). }
  unfold routeMatches in *. by rewrite Hurl, Hmethod, Hr.
Qed.

Lemma X21_witness :
  use Sample.platform (addRoute Sample.controller Sample.literalRoute)
    (Sample.get "/api/first") Sample.world0
  = use Sample.platform Sample.controller (Sample.get "/api/first") Sample.world0.
Proof.
  apply (X21_duplicate_route_is_dead Sample.platform Sample.controller
           Sample.literalRoute Sample.literalRoute (Sample.get "/api/first")
           Sample.world0).
  - apply list_elem_of_lookup. by exists 2%nat.
  - reflexivity.
  - reflexivity.
Defined.

(** ** More on the static resolver *)

Section MoreStatic.

Context {V : Type}.
Implicit Types (this : MiniServer V) (request : IncomingMessage) (w : World V).

Lemma replace_unfold pat repl s :
  replace pat repl s
  = if String.prefix pat s then repl +:+ substring (String.length pat) s
    else match s with
         | EmptyString => EmptyString
         | String c s' => String c (replace pat repl s')
         end.
Proof. by destruct s. Qed.

Lemma includes_unfold needle s :
  includes needle s
  = String.prefix needle s ||
    match s with
    | EmptyString => false
    | String _ s' => includes needle s'
    end.
Proof. by destruct s. Qed.

Lemma prefix_app_self (p s : string) : String.prefix p (p +:+ s) = true.
Proof.
  induction p as [|c p IH]; [by destruct s|].
  rewrite string_app_cons. simpl. by destruct (ascii_dec c c).
Qed.

Lemma substring_length_app (p s : string) :
  substring (String.length p) (p +:+ s) = s.
Proof. induction p as [|c p IH]; [done|]. by rewrite string_app_cons. Qed.

(** Without an occurrence of the pattern, [replace] changes nothing. *)
Lemma replace_absent pat repl s :
  includes pat s = false → replace pat repl s = s.
Proof.
  induction s as [|c s IH]; intros Hs; rewrite includes_unfold in Hs;
    apply orb_false_iff in Hs as [Hp Hs]; rewrite replace_unfold, Hp; [done|].
  by rewrite IH.
Qed.

(** [replace] acts on the first occurrence and on nothing else. *)
Lemma replace_first_occurrence pat repl a b :
  occursBefore pat a (pat +:+ b) = false →
  replace pat repl (a +:+ pat +:+ b) = a +:+ repl +:+ b.
Proof.
  induction a as [|c a IH]; intros Hocc.
  - change ("" +:+ pat +:+ b) with (pat +:+ b).
    by rewrite replace_unfold, prefix_app_self, substring_length_app.
  - cbn [occursBefore] in Hocc. apply orb_false_iff in Hocc as [Hp Hocc].
    rewrite replace_unfold, Hp, !string_app_cons. by rewrite IH.
Qed.

(** What [sendFile] leaves behind: the response grows by a head, one
    chunk and the end; the console by at most one line. *)
Lemma sendFile_shape pf this filename w :
  ∃ st headers chunk logs,
    sendFile pf this filename w
    = {| state := state w;
         response := response w ++ [WriteHead st headers; Write chunk; End];
         fileWrites := fileWrites w;
         console := console w ++ logs |} ∧
    (st = 200 ∨ st = 500).
Proof.
  unfold sendFile. destruct (readFileSync pf filename) as [file|err].
  - eexists 200, _, _, []. split; [|by left].
    unfold respond. simpl. by rewrite app_nil_r.
  - eexists 500, _, _, [err]. split; [done | by right].
Qed.

End MoreStatic.

(** X12: the static resolver touches neither the controller state nor the
    files: whatever the request and the disk, it only appends to the
    response, ending it exactly once as its last call, and to the
    console. *)
Theorem X12_static_only_responds {V} (pf : Platform) (this : MiniServer V)
    (request : IncomingMessage) (w : World V) :
  ∃ ops logs,
    staticFileServer pf this request w
    = {| state := state w;
         response := response w ++ ops ++ [End];
         fileWrites := fileWrites w;
         console := console w ++ logs |} ∧
    Forall (λ op, op ≠ End) ops.
Proof.
  unfold staticFileServer.
  destruct (includes ".well-known" _).
  { exists [], []. split; [|done]. unfold respond. simpl. by rewrite app_nil_r. }
  destruct (devHotReload this && _).
  { exists [WriteHead 200 [("Content-Type", "text/javascript")];
             Write htmlHotReloadWorker], [].
    split; [|by repeat constructor].
    unfold respond. simpl. by rewrite app_nil_r. }
  assert (Hsend : ∀ filename w0 logs0,
            state w0 = state w → response w0 = response w →
            fileWrites w0 = fileWrites w → console w0 = console w ++ logs0 →
            ∃ ops logs,
              sendFile pf this filename w0
              = {| state := state w; response := response w ++ ops ++ [End];
                   fileWrites := fileWrites w; console := console w ++ logs |} ∧
              Forall (λ op, op ≠ End) ops).
  { intros filename w0 logs0 Hs Hr Hf Hc.
    destruct (sendFile_shape pf this filename w0)
      as (st & headers & chunk & logs & -> & _).
    exists [WriteHead st headers; Write chunk], (logs0 ++ logs).
    split; [|by repeat constructor].
    rewrite Hs, Hr, Hf, Hc. by rewrite <- app_assoc. }
  destruct (existsSync pf _); simpl.
  - destruct (isDirectory pf _);
      apply (Hsend _ w []); by rewrite ?app_nil_r.
  - destruct (includes "api" _).
    + exists [WriteHead 400 [("Content-Type", "text/plain")];
               Write "API call not found"], [].
      split; [|by repeat constructor].
      unfold respond. simpl. by rewrite app_nil_r.
    + by eapply Hsend.
Qed.

(** X13: on a response not yet written to, the status the static resolver
    leaves is 200, 400 or 500, and never 404; it is 400 only for a missing
    path that contains [api]. *)
Theorem X13_static_status {V} (pf : Platform) (this : MiniServer V)
    (request : IncomingMessage) (w : World V) :
  response w = [] →
  let st := statusCode (response (staticFileServer pf this request w)) in
  (st = 200 ∨ st = 400 ∨ st = 500) ∧
  (st = 400 →
   existsSync pf (resolvedFilename pf this request) = false ∧
   includes "api" (resolvedFilename pf this request) = true).
Proof.
  intros Hfresh st. subst st.
  unfold staticFileServer, resolvedFilename.
  destruct (includes ".well-known" _).
  { unfold respond. simpl. rewrite Hfresh. split; [by left | done]. }
  destruct (devHotReload this && _).
  { rewrite statusCode_respond_head. split; [by left | done]. }
  assert (Hsend : ∀ filename w0,
            statusCode (response (sendFile pf this filename w0)) = 200 ∨
            statusCode (response (sendFile pf this filename w0)) = 500).
  { intros filename w0.
    destruct (sendFile_shape pf this filename w0)
      as (st & headers & chunk & logs & -> & Hst).
    simpl. unfold statusCode. rewrite statusCode_from_app. simpl. done. }
  destruct (existsSync pf _); simpl.
  - destruct (isDirectory pf _);
      (destruct (Hsend (joinPath pf (joinPath pf (root this) (staticFolder this))
                          (default "" (url request)) +:+ "/index.html") w)
         as [->| ->] ||
       destruct (Hsend (joinPath pf (joinPath pf (root this) (staticFolder this))
                          (default "" (url request))) w)
         as [->| ->]); (split; [auto | done]).
  - destruct (includes "api" _).
    + rewrite statusCode_respond_head. split; [auto | done].
    + match goal with
      | |- context [sendFile pf this ?f ?w0] =>
          destruct (Hsend f w0) as [->| ->]
      end; (split; [auto | done]).
Qed.

Lemma X13_witness :
  (statusCode (response (staticFileServer Demo.platform (Sample.server None false)
                           (Sample.get "/api/missing") Sample.world0)) = 200 ∨
   statusCode (response (staticFileServer Demo.platform (Sample.server None false)
                           (Sample.get "/api/missing") Sample.world0)) = 400 ∨
   statusCode (response (staticFileServer Demo.platform (Sample.server None false)
                           (Sample.get "/api/missing") Sample.world0)) = 500) ∧
  (statusCode (response (staticFileServer Demo.platform (Sample.server None false)
                           (Sample.get "/api/missing") Sample.world0)) = 400 →
   existsSync Demo.platform
     (resolvedFilename Demo.platform (Sample.server None false)
        (Sample.get "/api/missing")) = false ∧
   includes "api"
     (resolvedFilename Demo.platform (Sample.server None false)
        (Sample.get "/api/missing")) = true).
Proof.
  apply (X13_static_status Demo.platform (Sample.server None false)
           (Sample.get "/api/missing") Sample.world0).
  reflexivity.
Defined.

(** X14: with hot reload on, a request for [/] followed by the name of the
    worker file gets the worker script, with status 200 and the
    JavaScript content type, and nothing is asked of the file system
    (unless the resolved path contains [.well-known]). *)
Theorem X14_worker_script_served {V} (pf : Platform) (this : MiniServer V)
    (m : option string) (w : World V) :
  devHotReload this = true →
  includes ".well-known"
    (resolvedFilename pf this
       {| url := Some ("/" +:+ hotRelaodfile this); method := m |}) = false →
  staticFileServer pf this
    {| url := Some ("/" +:+ hotRelaodfile this); method := m |} w
  = respond [WriteHead 200 [("Content-Type", "text/javascript")];
             Write htmlHotReloadWorker; End] w.
Proof.
  intros Hhot Hprobe. unfold staticFileServer, resolvedFilename in *.
  change (default "" (url {| url := Some ("/" +:+ hotRelaodfile this);
                             method := m |}))
    with ("/" +:+ hotRelaodfile this) in *.
  rewrite Hprobe, Hhot.
  assert (Hstrip : replace "/" "" ("/" +:+ hotRelaodfile this)
                   = hotRelaodfile this).
  { change ("/" +:+ hotRelaodfile this) with (String "/" (hotRelaodfile this)).
    by rewrite replace_unfold, prefix_char, bool_decide_true. }
  rewrite Hstrip. by rewrite bool_decide_true.
Qed.

Lemma X14_witness :
  staticFileServer Sample.barePlatform (Sample.server None true)
    {| url := Some ("/" +:+ "hot-reload-k3x9f.js"); method := Some "GET" |}
    Sample.world0
  = respond [WriteHead 200 [("Content-Type", "text/javascript")];
             Write htmlHotReloadWorker; End] Sample.world0.
Proof.
  apply (X14_worker_script_served Sample.barePlatform (Sample.server None true)
           (Some "GET") Sample.world0);
    reflexivity.
Defined.

(** X15: for a request that is not the worker request of the hot reload
    and whose resolved path does not contain [.well-known]: a path that
    resolves to a readable file that is not a directory is sent as it is,
    byte for byte, with status 200 and the content type of its extension
    (no content type for an extension outside the table), when hot reload
    is off or the name does not end in [.html].  Nothing in this depends
    on where the resolved path lies: a path that leaves the static folder
    is served as well. *)
Theorem X15_file_served_verbatim {V} (pf : Platform) (this : MiniServer V)
    (request : IncomingMessage) (w : World V) (content : string) :
  includes ".well-known" (resolvedFilename pf this request) = false →
  isHotReloadRequest this request = false →
  existsSync pf (resolvedFilename pf this request) = true →
  isDirectory pf (resolvedFilename pf this request) = false →
  readFileSync pf (resolvedFilename pf this request) = inl content →
  endsWith ".html" (resolvedFilename pf this request) && devHotReload this = false →
  staticFileServer pf this request w
  = respond
      [WriteHead 200
         match contentTypes !! extname pf (resolvedFilename pf this request) with
         | Some contentType => [("Content-Type", contentType)]
         | None => []
         end;
       Write content; End] w.
Proof.
  unfold staticFileServer, resolvedFilename, isHotReloadRequest, sendFile.
  by intros -> -> -> -> -> ->.
Qed.

(** The file [/srv/secret.txt], outside [/srv/public], is served. *)
Lemma X15_witness :
  resolvedFilename Demo.platform (Sample.server None true)
    (Sample.get "/../secret.txt") = "/srv/secret.txt" ∧
  staticFileServer Demo.platform (Sample.server None true)
    (Sample.get "/../secret.txt") Sample.world0
  = respond [WriteHead 200 []; Write "s3cret"; End] Sample.world0.
Proof.
  split; [reflexivity|].
  apply (X15_file_served_verbatim Demo.platform (Sample.server None true)
           (Sample.get "/../secret.txt") Sample.world0 "s3cret");
    reflexivity.
Defined.

(** X16: for a request that is not the worker request of the hot reload
    and whose resolved path does not contain [.well-known]: a path that
    resolves to a directory is answered with the [index.html] inside it;
    when that file cannot be read the answer is status 500 with the error
    text and a line feed as body, and the error is logged: the [404.html]
    page is not used. *)
Theorem X16_directory_index {V} (pf : Platform) (this : MiniServer V)
    (request : IncomingMessage) (w : World V) :
  includes ".well-known" (resolvedFilename pf this request) = false →
  isHotReloadRequest this request = false →
  existsSync pf (resolvedFilename pf this request) = true →
  isDirectory pf (resolvedFilename pf this request) = true →
  staticFileServer pf this request w
  = sendFile pf this (resolvedFilename pf this request +:+ "/index.html") w ∧
  (∀ err,
     readFileSync pf (resolvedFilename pf this request +:+ "/index.html") = inr err →
     staticFileServer pf this request w
     = respond [WriteHead 500 [("Content-Type", "text/plain")];
                Write (err +:+ nl); End] (logLine err w)).
Proof.
  unfold staticFileServer, resolvedFilename, isHotReloadRequest.
  intros -> -> -> ->. split; [done|].
  intros err Hread. unfold sendFile. by rewrite Hread.
Qed.

Lemma X16_witness :
  staticFileServer Demo.platform (Sample.server None false)
    (Sample.get "/empty") Sample.world0
  = sendFile Demo.platform (Sample.server None false)
      ("/srv/public/empty" +:+ "/index.html") Sample.world0 ∧
  (∀ err,
     readFileSync Demo.platform ("/srv/public/empty" +:+ "/index.html") = inr err →
     staticFileServer Demo.platform (Sample.server None false)
       (Sample.get "/empty") Sample.world0
     = respond [WriteHead 500 [("Content-Type", "text/plain")];
                Write (err +:+ nl); End] (logLine err Sample.world0)).
Proof.
  apply (X16_directory_index Demo.platform (Sample.server None false)
           (Sample.get "/empty") Sample.world0);
    reflexivity.
Defined.

(** X17: what hot reload does to an HTML file it sends.  The reload script
    goes right before the first [</head>] of the file and the rest of the
    file is kept; a file without [</head>] is sent unchanged. *)
Theorem X17_reload_script_injection {V} (pf : Platform) (this : MiniServer V)
    (filename content : string) (w : World V) :
  readFileSync pf filename = inl content →
  endsWith ".html" filename = true →
  devHotReload this = true →
  (includes "</head>" content = false →
   body (response (sendFile pf this filename w))
   = body (response w) +:+ content) ∧
  (∀ a b,
     content = a +:+ "</head>" +:+ b →
     occursBefore "</head>" a ("</head>" +:+ b) = false →
     body (response (sendFile pf this filename w))
     = body (response w) +:+ a +:+ htmlHotReloadScript this +:+ "</head>" +:+ b).
Proof.
  intros Hread Hhtml Hhot. unfold sendFile. rewrite Hread, Hhtml, Hhot.
  cbn [andb response respond]. split.
  - intros Habsent. rewrite replace_absent by done.
    rewrite body_app. simpl. by rewrite string_app_nil_r.
  - intros a b -> Hfirst. rewrite replace_first_occurrence by done.
    rewrite body_app. simpl.
    by rewrite string_app_nil_r, !string_app_assoc.
Qed.

Lemma X17_witness :
  body (response (sendFile Demo.platform (Sample.server None true)
                    "/srv/public/plain.html" Sample.world0))
  = "" +:+ "<html><body>No head</body></html>" ∧
  body (response (sendFile Demo.platform (Sample.server None true)
                    "/srv/public/index.html" Sample.world0))
  = "" +:+ "<html><head>" +:+ htmlHotReloadScript (Sample.server None true)
    +:+ "</head>" +:+ "<body>Home</body></html>".
Proof.
  split.
  - apply (X17_reload_script_injection Demo.platform (Sample.server None true)
             "/srv/public/plain.html" "<html><body>No head</body></html>"
             Sample.world0);
      reflexivity.
  - apply (X17_reload_script_injection Demo.platform (Sample.server None true)
             "/srv/public/index.html"
             "<html><head></head><body>Home</body></html>"
             Sample.world0 eq_refl eq_refl eq_refl);
      reflexivity.
Defined.

(** ** More on the dispatcher *)

(** X18: when a route handles the request, the server leaves the world as
    [use] left it: the response holds what the action wrote and nothing
    from the static resolver, whatever is on disk.  The action is called
    with a request whose [url] is a string, [''] when the incoming one was
    not. *)
Theorem X18_handled_request_skips_static `{JsValue V} (pf : Platform)
    (this : MiniServer V) (c : ApiController V) (route : ApiControllerRoute V)
    (request : IncomingMessage) (w w1 : World V) :
  apiConteoller this = Some c →
  findRoute c request = Some route →
  routeAction route
    {| url := Some (default "" (url request)); method := method request |} w
  = Normal tt w1 →
  serverMainHandler pf this request w
  = Normal tt
      (if persistState c
       then writeFile pf (stateSaveFileName c) (stringifyPretty (state w1)) w1
       else w1).
Proof.
  intros Hc Hfind Haction. unfold serverMainHandler, apiCallsServer.
  rewrite Hc. unfold use. rewrite findRoute_url_default, Hfind.
  unfold runRoute. by rewrite Haction.
Qed.

Lemma X18_witness :
  serverMainHandler Sample.barePlatform (Sample.server (Some Demo.writer) true)
    {| url := Some "/api/set"; method := Some "POST" |} Sample.world0
  = Normal tt
      (writeFile Sample.barePlatform "./server.state.temp"
         (stringifyPretty (Json.JObj [("count", Json.JNum 5)]))
         (respond [WriteHead 200 [("Content-Type", "text/plain")];
                   Write "ok"; End]
            (setState (Json.JObj [("count", Json.JNum 5)]) Sample.world0))).
Proof.
  apply (X18_handled_request_skips_static Sample.barePlatform
           (Sample.server (Some Demo.writer) true) Demo.writer
           (Demo.setCountRoute 5)
           {| url := Some "/api/set"; method := Some "POST" |} Sample.world0);
    reflexivity.
Defined.

(** X19: when the action of the route picked for the request throws, the
    promise of [serverMainHandler] is rejected with that error: the static
    resolver is not run and no state is saved, so the world is the one
    the action left and the response is whatever the action had written
    before it threw. *)
Theorem X19_action_throw_rejects `{JsValue V} (pf : Platform)
    (this : MiniServer V) (c : ApiController V) (route : ApiControllerRoute V)
    (request : IncomingMessage) (w w' : World V) (err : string) :
  apiConteoller this = Some c →
  findRoute c request = Some route →
  routeAction route
    {| url := Some (default "" (url request)); method := method request |} w
  = Throw err w' →
  serverMainHandler pf this request w = Throw err w'.
Proof.
  intros Hc Hfind Haction. unfold serverMainHandler, apiCallsServer.
  rewrite Hc. unfold use. rewrite findRoute_url_default, Hfind.
  unfold runRoute. by rewrite Haction.
Qed.

Lemma X19_witness :
  serverMainHandler Sample.platform (Sample.server (Some Sample.controller) true)
    (Sample.get "/fail") Sample.world0
  = Throw "Error: boom"
      {| state := Json.JObj [("count", Json.JNum 1)]; response := [];
         fileWrites := []; console := [] |}.
Proof.
  apply (X19_action_throw_rejects Sample.platform
           (Sample.server (Some Sample.controller) true) Sample.controller
           Sample.failingRoute (Sample.get "/fail") Sample.world0);
    reflexivity.
Defined.

(** ** Saving and loading the state *)

(** X20: the state saved after a handled request is the state a controller
    loads at its start.  With [persistState] on, the last write [use]
    issues goes to the state file and carries the state the action left;
    a controller with [persistState] on whose state file holds that text
    starts, once the load has run, from that very state, provided
    [JSON.parse] reads back what [JSON.stringify] printed for it. *)
Theorem X20_saved_state_loads_back `{JsValue V} `{JsonParse V} (pf : Platform)
    (this : ApiController V) (route : ApiControllerRoute V)
    (request : IncomingMessage) (w w1 : World V) :
  findRoute this request = Some route →
  persistState this = true →
  routeAction route request w = Normal tt w1 →
  parse (stringifyPretty (state w1)) = inl (state w1) →
  ∃ w2 fw,
    use pf this request w = Normal {| handled := true |} w2 ∧
    last (fileWrites w2) = Some fw ∧
    fw_file fw = stateSaveFileName this ∧
    ∀ (readFile : string → string + string) (other : ApiController V)
      (w0 : World V),
      persistState other = true →
      readFile (stateSaveFileName other) = inl (fw_data fw) →
      loadOnStart readFile other w0 = setState (state w1) w0.
Proof.
  intros Hfind Hpersist Haction Hparse.
  eexists _, _. split; [|split; [|split]].
  - rewrite (use_found _ _ _ _ _ Hfind). unfold runRoute.
    by rewrite Haction, Hpersist.
  - unfold writeFile. simpl. apply last_snoc.
  - done.
  - intros readFile other w0 Hother Hread.
    unfold loadOnStart, tryToLoadState. simpl in Hread.
    by rewrite Hother, Hread, Hparse.
Qed.

Lemma X20_witness :
  ∃ w2 fw,
    use Demo.platform Demo.writer (Sample.get "/api/set") Sample.world0
    = Normal {| handled := true |} w2 ∧
    last (fileWrites w2) = Some fw ∧
    state (loadOnStart (Demo.readSaved (fw_data fw)) Demo.writer Sample.world0)
    = Json.JObj [("count", Json.JNum 5)].
Proof.
  assert (Hparse : parse (stringifyPretty (Json.JObj [("count", Json.JNum 5)]))
                   = inl (Json.JObj [("count", Json.JNum 5)]))
    by (vm_compute; reflexivity).
  destruct (X20_saved_state_loads_back Demo.platform Demo.writer
              (Demo.setCountRoute 5) (Sample.get "/api/set") Sample.world0
              (respond [WriteHead 200 [("Content-Type", "text/plain")];
                        Write "ok"; End]
                 (setState (Json.JObj [("count", Json.JNum 5)]) Sample.world0))
              eq_refl eq_refl eq_refl Hparse)
    as (w2 & fw & Huse & Hlast & _ & Hload).
  exists w2, fw. split; [exact Huse|]. split; [exact Hlast|].
  rewrite (Hload (Demo.readSaved (fw_data fw)) Demo.writer Sample.world0
             eq_refl eq_refl).
  reflexivity.
Defined.
